(** * lassie.core: a shallow embedding of [src/lassie/core.py]

    The module fetches a page and assembles a dictionary of metadata from
    its meta, link and img tags.  Python values are embedded as the
    inductive [value], dictionaries as [gmap string value], exceptions as
    the [Raise] branch of the monad [result], and a method call as the
    binding of a list of positional arguments to the parameter names of
    the [def] (a wrong number of arguments raises [TypeError], a name
    that no parameter binds raises [NameError]). *)

From Stdlib Require Import ZArith Ascii String.
From stdpp Require Import gmap strings list fin_maps.

#[local] Open Scope string_scope.
#[local] Set Warnings "-register-all".

(** ** Python values *)

Inductive value :=
| VNone
| VBool (b : bool)
| VInt (z : Z)
| VStr (s : string)
| VList (l : list value)
| VDict (d : gmap string value).

(** [bool(v)]: the truth value Python gives [v] in [if v] and [not v]. *)
Definition truthy (v : value) : bool :=
  match v with
  | VNone => false
  | VBool b => b
  | VInt z => negb (z =? 0)%Z
  | VStr s => negb (String.eqb s "")
  | VList l => match l with [] => false | _ => true end
  | VDict d => negb (bool_decide (d = ∅))
  end.

(** [a or b] returns its first operand when it is true, else the second. *)
Definition py_or (a b : value) : value := if truthy a then a else b.

(** ** Strings: [str.startswith], [str.endswith], [str.split] *)

Fixpoint startswith (s p : string) : bool :=
  match p, s with
  | EmptyString, _ => true
  | String c p', String d s' => Ascii.eqb c d && startswith s' p'
  | String _ _, EmptyString => false
  end.

Definition endswith (s p : string) : bool :=
  startswith (String.rev s) (String.rev p).

Fixpoint split (sep : ascii) (s : string) : list string :=
  match s with
  | EmptyString => [""]
  | String c s' =>
      if Ascii.eqb c sep then "" :: split sep s'
      else match split sep s' with
           | w :: ws => String c w :: ws
           | [] => [String c ""]
           end
  end.

(** ** Exceptions and the exception monad *)

(** What a [LassieError] was constructed from: a message, or the
    [RequestException] caught in [_retreive_content]. *)
Inductive lassie_arg :=
| Message (s : string)
| Caught (request_exception : string).

(** The tag tree of BeautifulSoup: the elements of the document in
    document order, each with its name, its attributes and its
    [.string]. *)
Record Tag := {
  tag_name : string;
  tag_attrs : gmap string value;
  tag_string : value;
}.

Abbreviation Soup := (list Tag).

(** The objects [fetch] passes to the helper methods. *)
Inductive object :=
| OStr (s : string)
| OSoup (s : Soup)
| ODict (d : gmap string value).

Inductive exn :=
| TypeError_arity (callee : string) (params : list string) (args : list object)
| TypeError (msg : string)
| NameError (name : string)
| UnboundLocalError (name : string)
| AttributeError (type_name attr : string)
| KeyError (key : string)
| LassieError (arg : lassie_arg).

Inductive result (A : Type) :=
| Return (a : A)
| Raise (e : exn).

Arguments Return {A} a.
Arguments Raise {A} e.

#[global] Instance result_ret : MRet result := @Return.
#[global] Instance result_bind : MBind result := fun A B f m =>
  match m with
  | Return a => f a
  | Raise e => Raise e
  end.

(** [for x in l: body], threading the loop's variables as a state. *)
Fixpoint for_each {A S : Type} (body : S → A → result S) (l : list A) (s : S)
  : result S :=
  match l with
  | [] => Return s
  | x :: l' => s' ← body s x; for_each body l' s'
  end.

(** ** Calls and names *)

Definition frame := list (string * object).

(** Binding of the positional arguments of a call to the parameters the
    [def] declares (besides [self]). *)
Definition bind_args (callee : string) (params : list string)
    (args : list object) : result frame :=
  if (length params =? length args)%nat then Return (zip params args)
  else Raise (TypeError_arity callee params args).

Fixpoint frame_lookup (f : frame) (x : string) : option object :=
  match f with
  | [] => None
  | (y, o) :: f' => if String.eqb x y then Some o else frame_lookup f' x
  end.

(** Reading a name inside a method body.  [core.py] binds at module level
    only [BeautifulSoup], [requests], [urljoin], [LassieError],
    [FILTER_MAPS], [clean_text], [convert_to_int], [merge_settings] and
    [Lassie]; any other name must be a parameter of the running call. *)
Definition load (f : frame) (x : string) : result object :=
  match frame_lookup f x with
  | Some o => Return o
  | None => Raise (NameError x)
  end.

Definition as_str (o : object) : result string :=
  match o with
  | OStr s => Return s
  | OSoup _ => Raise (TypeError "BeautifulSoup object used as a str")
  | ODict _ => Raise (TypeError "dict used as a str")
  end.

Definition as_soup (o : object) : result Soup :=
  match o with
  | OSoup s => Return s
  | OStr _ => Raise (AttributeError "str" "find_all")
  | ODict _ => Raise (AttributeError "dict" "find_all")
  end.

Definition as_dict (o : object) : result (gmap string value) :=
  match o with
  | ODict d => Return d
  | OStr _ => Raise (TypeError "str used as a dict")
  | OSoup _ => Raise (TypeError "BeautifulSoup object used as a dict")
  end.

(** ** Tags *)

(** [tag.get(k, d)]; [tag.get(k)] is [tag.get(k, None)]. *)
Definition tag_get (t : Tag) (k : string) (d : value) : value :=
  default d (tag_attrs t !! k).

(** [tag[k] = v] *)
Definition tag_set (t : Tag) (k : string) (v : value) : Tag :=
  {| tag_name := tag_name t;
     tag_attrs := <[k := v]> (tag_attrs t);
     tag_string := tag_string t |}.

(** [soup.find_all(name, {key: pattern})]: the elements called [name]
    whose attribute [key] is a string the pattern accepts.  An attribute
    that BeautifulSoup holds as a list of words, such as [rel], is carried
    here as the one string written in the document, and the pattern of a
    filter map is the predicate that says whether the match of its
    compiled expression against that attribute succeeds. *)
Definition tag_matches (name key : string) (pattern : string → bool)
    (t : Tag) : bool :=
  String.eqb (tag_name t) name &&
  match tag_attrs t !! key with
  | Some (VStr s) => pattern s
  | _ => false
  end.

Definition find_all (soup : Soup) (name key : string)
    (pattern : string → bool) : list Tag :=
  List.filter (tag_matches name key pattern) soup.

(** [soup.findAll(name)], as positions in the tree: the loop of
    [_find_all_images] writes to the elements it visits. *)
Fixpoint findAll_from (i : nat) (soup : Soup) (name : string) : list nat :=
  match soup with
  | [] => []
  | t :: soup' =>
      if String.eqb (tag_name t) name then i :: findAll_from (S i) soup' name
      else findAll_from (S i) soup' name
  end.

Definition findAll (soup : Soup) (name : string) : list nat :=
  findAll_from 0 soup name.

(** [soup.title]: the first title element, if any. *)
Definition soup_title (soup : Soup) : option Tag :=
  List.find (fun t => String.eqb (tag_name t) "title") soup.

(** ** Dictionaries *)

(** [d[k]] *)
Definition getitem {A} (d : gmap string A) (k : string) : result A :=
  match d !! k with
  | Some v => Return v
  | None => Raise (KeyError k)
  end.

(** [k in d] *)
Definition contains {A} (d : gmap string A) (k : string) : bool :=
  bool_decide (is_Some (d !! k)).

(** [d.update(d')] *)
Definition dict_update (d d' : gmap string value) : gmap string value :=
  d' ∪ d.

(** [v.startswith(p)] and [v.split(',')] on a value that need not be a
    string. *)
Definition type_name (v : value) : string :=
  match v with
  | VNone => "NoneType"
  | VBool _ => "bool"
  | VInt _ => "int"
  | VStr _ => "str"
  | VList _ => "list"
  | VDict _ => "dict"
  end.

Definition value_startswith (v p : value) : result bool :=
  match v, p with
  | VStr s, VStr p => Return (startswith s p)
  | VStr _, _ => Raise (TypeError "startswith first arg must be str")
  | _, _ => Raise (AttributeError (type_name v) "startswith")
  end.

Definition value_split (v : value) (sep : ascii) : result value :=
  match v with
  | VStr s => Return (VList (VStr <$> split sep s))
  | _ => Raise (AttributeError (type_name v) "split")
  end.

(** ** The collaborators

    [core.py] imports [requests], [BeautifulSoup], [urljoin] (from
    [.compat]), [FILTER_MAPS] (from [.filters]) and [clean_text],
    [convert_to_int] (from [.utils]); none of them is defined in
    [core.py], so the methods below take them from an environment.
    The parser and [convert_to_int] are functions: they return on every
    input, as [core.py], which guards neither call, relies on. *)

(** One entry of [FILTER_MAPS['meta']]. *)
Record meta_filter := {
  mf_pattern : string → bool;
  mf_key : string;
  mf_map : gmap string string;
  mf_image_key : string;
  mf_video_key : string;
}.

(** One entry of [FILTER_MAPS['link']]. *)
Record link_filter := {
  lf_pattern : string → bool;
  lf_key : string;
  lf_type : string;
}.

Record Env := {
  (** [requests.get(url)]: the response's [.text], or the
      [RequestException] raised. *)
  requests_get : string → string + string;
  clean_text : string → string;
  BeautifulSoup : string → value → Soup;
  (** [urljoin(base, url)] on two non-empty strings. *)
  urljoin_str : string → string → string;
  convert_to_int : value → value;
  FILTER_MAPS_meta : gmap string meta_filter;
  FILTER_MAPS_link : gmap string link_filter;
}.

(** [urljoin(base, url)]: the standard library returns the other
    argument when one is empty or [None]. *)
Definition urljoin (E : Env) (base : string) (url : value) : result value :=
  if String.eqb base "" then Return url
  else if negb (truthy url) then Return (VStr base)
  else match url with
       | VStr u => Return (VStr (urljoin_str E base u))
       | _ => Raise (TypeError "Cannot mix str and non-str arguments")
       end.

(** ** [merge_settings] *)

Definition is_None (v : value) : bool :=
  match v with VNone => true | _ => false end.

Definition merge_settings (fetch_setting class_setting : value) : value :=
  if is_None fetch_setting then class_setting
  else if is_None class_setting then fetch_setting
  else fetch_setting.

(** ** The class [Lassie] *)

Record Lassie := {
  open_graph : value;
  twitter_card : value;
  touch_icon : value;
  favicon : value;
  all_images : value;
  parser : value;
}.

(** [Lassie.__init__] *)
Definition __init__ : Lassie :=
  {| open_graph := VNone; twitter_card := VNone; touch_icon := VNone;
     favicon := VNone; all_images := VNone; parser := VStr "html5lib" |}.

(** The keyword arguments of a call of [fetch]: [None] for an argument
    the caller leaves out, [Some v] for one the caller passes. *)
Record fetch_kwargs := {
  kw_open_graph : option value;
  kw_twitter_card : option value;
  kw_touch_icon : option value;
  kw_favicon : option value;
  kw_all_images : option value;
  kw_parser : option value;
}.

Definition no_kwargs : fetch_kwargs :=
  {| kw_open_graph := None; kw_twitter_card := None; kw_touch_icon := None;
     kw_favicon := None; kw_all_images := None; kw_parser := None |}.

(** The parameters of [fetch] once the call is bound: an argument left
    out takes the default of the signature
    [open_graph=True, twitter_card=True, touch_icon=True, favicon=True,
    all_images=False, parser=None]. *)
Definition fetch_params (kw : fetch_kwargs) : Lassie :=
  {| open_graph := default (VBool true) (kw_open_graph kw);
     twitter_card := default (VBool true) (kw_twitter_card kw);
     touch_icon := default (VBool true) (kw_touch_icon kw);
     favicon := default (VBool true) (kw_favicon kw);
     all_images := default (VBool false) (kw_all_images kw);
     parser := default VNone (kw_parser kw) |}.

(** Lines 76-81 of [fetch]: the settings the rest of the call uses. *)
Definition fetch_settings (self : Lassie) (kw : fetch_kwargs) : Lassie :=
  let p := fetch_params kw in
  {| open_graph := merge_settings (open_graph p) (open_graph self);
     twitter_card := merge_settings (twitter_card p) (twitter_card self);
     touch_icon := merge_settings (touch_icon p) (touch_icon self);
     favicon := merge_settings (favicon p) (favicon self);
     all_images := merge_settings (all_images p) (all_images self);
     parser := merge_settings (py_or (parser p) (parser self)) (parser self) |}.

(** The local variables of [_filter_meta_data] that its loop updates.
    [image_prop] and [video_prop] are bound by the first element that
    passes the guard of the loop body. *)
Record meta_locals := {
  l_data : gmap string value;
  l_image : gmap string value;
  l_video : gmap string value;
  l_image_prop : option string;
  l_video_prop : option string;
}.

(** [d[k]] for a list [d[k]] about to be appended to. *)
Definition getitem_list (d : gmap string value) (k : string)
  : result (list value) :=
  v ← getitem d k;
  match v with
  | VList l => Return l
  | _ => Raise (AttributeError (type_name v) "append")
  end.

(** [d[k].append(x)] *)
Definition append_to (d : gmap string value) (k : string) (x : value)
  : result (gmap string value) :=
  l ← getitem_list d k;
  Return (<[k := VList (l ++ [x])]> d).

Section Methods.

Variable E : Env.

Definition _retreive_content (url : string) : result string :=
  match requests_get E url with
  | inl text => Return text
  | inr e => Raise (LassieError (Caught e))
  end.

(** Lines 159-165: the coercions of the loop body. *)
Definition coerce_value (meta : meta_filter) (prop : string) (val : value)
  : result value :=
  let image_prop := mf_image_key meta in
  let video_prop := mf_video_key meta in
  let val :=
    if (startswith prop image_prop || startswith prop video_prop)
       && (endswith prop "width" || endswith prop "height")
    then (if endswith prop "width" || endswith prop "height"
          then convert_to_int E val else val)
    else val in
  if String.eqb prop "keywords" then value_split val ","
  else Return val.

(** The body of the loop of [_filter_meta_data], lines 149-173. *)
Definition meta_body (f : frame) (meta : meta_filter) (st : meta_locals)
    (line : Tag) : result meta_locals :=
  let meta_map := mf_map meta in
  let prop := tag_get line (mf_key meta) VNone in
  let val := tag_get line "content" VNone in
  match prop with
  | VStr prop =>
      match meta_map !! prop with
      | Some field =>
          if contains (l_data st) field then Return st
          else
            let image_prop := mf_image_key meta in
            let video_prop := mf_video_key meta in
            val ← coerce_value meta prop val;
            if truthy (VStr image_prop) && startswith prop image_prop
               && truthy val
            then
              absolute ← value_startswith val
                           (py_or (VStr "http") (VStr "www"));
              src ← (if absolute : bool then Return val
                     else url ← load f "url" ≫= as_str;
                          urljoin E url val);
              Return {| l_data := l_data st;
                        l_image := <[field := src]> (l_image st);
                        l_video := l_video st;
                        l_image_prop := Some image_prop;
                        l_video_prop := Some video_prop |}
            else if truthy (VStr video_prop) && startswith prop video_prop
                    && truthy val
            then
              Return {| l_data := l_data st;
                        l_image := l_image st;
                        l_video := <[field := val]> (l_video st);
                        l_image_prop := Some image_prop;
                        l_video_prop := Some video_prop |}
            else
              Return {| l_data := <[field := val]> (l_data st);
                        l_image := l_image st;
                        l_video := l_video st;
                        l_image_prop := Some image_prop;
                        l_video_prop := Some video_prop |}
      | None => Return st
      end
  | VList _ => Raise (TypeError "unhashable type: 'list'")
  | VDict _ => Raise (TypeError "unhashable type: 'dict'")
  | _ => Return st
  end.

(** Lines 175-181: what follows the loop. *)
Definition meta_finish (st : meta_locals) : result (gmap string value) :=
  data ← (if truthy (VDict (l_image st)) then
            image_prop ← match l_image_prop st with
                         | Some p => Return p
                         | None => Raise (UnboundLocalError "image_prop")
                         end;
            append_to (l_data st) "images"
              (VDict (<["type" := VStr image_prop]> (l_image st)))
          else Return (l_data st));
  if truthy (VDict (l_video st)) then
    append_to data "videos" (VDict (l_video st))
  else Return data.

(** [def _filter_meta_data(self, source, soup, data)] *)
Definition _filter_meta_data_params : list string :=
  ["source"; "soup"; "data"].

Definition _filter_meta_data (args : list object)
  : result (gmap string value) :=
  f ← bind_args "_filter_meta_data" _filter_meta_data_params args;
  source ← load f "source" ≫= as_str;
  soup ← load f "soup" ≫= as_soup;
  data ← load f "data" ≫= as_dict;
  meta ← getitem (FILTER_MAPS_meta E) source;
  let html := find_all soup "meta" (mf_key meta) (mf_pattern meta) in
  st ← for_each (meta_body f meta) html
         {| l_data := data; l_image := ∅; l_video := ∅;
            l_image_prop := None; l_video_prop := None |};
  meta_finish st.

(** [def _filter_link_tag_data(self, source, soup, data, url)] *)
Definition _filter_link_tag_data_params : list string :=
  ["source"; "soup"; "data"; "url"].

Definition link_body (link : link_filter) (url : string)
    (data : gmap string value) (line : Tag) : result (gmap string value) :=
  images ← getitem_list data "images";
  src ← urljoin E url (tag_get line "href" VNone);
  let image : gmap string value :=
    <["type" := VStr (lf_type link)]> {["src" := src]} in
  Return (<["images" := VList (images ++ [VDict image])]> data).

Definition _filter_link_tag_data (args : list object)
  : result (gmap string value) :=
  f ← bind_args "_filter_link_tag_data" _filter_link_tag_data_params args;
  source ← load f "source" ≫= as_str;
  soup ← load f "soup" ≫= as_soup;
  data ← load f "data" ≫= as_dict;
  url ← load f "url" ≫= as_str;
  link ← getitem (FILTER_MAPS_link E) source;
  let html := find_all soup "link" (lf_key link) (lf_pattern link) in
  for_each (link_body link url) html data.

(** [def _find_all_images(self, soup, data)].  The loop variable
    [image] is an element of the tree and [img] the dictionary being
    built; the method returns [data], and the tree as its writes leave
    it. *)
Definition _find_all_images_params : list string := ["soup"; "data"].

Definition images_body (st : Soup * gmap string value) (i : nat)
  : result (Soup * gmap string value) :=
  let '(soup, data) := st in
  match soup !! i with
  | None => Return st
  | Some image =>
      let img : gmap string value :=
        <["src" := tag_get image "src" VNone]>
          (<["alt" := tag_get image "alt" (VStr "")]>
             {["type" := VStr "body_image"]}) in
      let width := convert_to_int E (tag_get image "width" VNone) in
      let img := if truthy width then <["width" := width]> img else img in
      let height := convert_to_int E (tag_get image "height" VNone) in
      let soup :=
        if truthy height then <[i := tag_set image "height" height]> soup
        else soup in
      data ← append_to data "images" (VDict img);
      Return (soup, data)
  end.

Definition _find_all_images (args : list object)
  : result (Soup * gmap string value) :=
  f ← bind_args "_find_all_images" _find_all_images_params args;
  soup ← load f "soup" ≫= as_soup;
  data ← load f "data" ≫= as_dict;
  let all_images := findAll soup "img" in
  for_each images_body all_images (soup, data).

(** [soup.title.string] *)
Definition title_string (soup : Soup) : result value :=
  match soup_title soup with
  | Some t => Return (tag_string t)
  | None => Raise (AttributeError "NoneType" "string")
  end.

(** [data.update(m(...))] for a method [m] that changes [data] in place
    and returns it: the dictionary passed to [update] is [data]
    itself. *)
Definition update_with (r : result (gmap string value))
  : result (gmap string value) :=
  data ← r; Return (dict_update data data).

(** [def fetch(self, url, open_graph=True, twitter_card=True,
    touch_icon=True, favicon=True, all_images=False, parser=None)] *)
Definition fetch (self : Lassie) (url : string) (kw : fetch_kwargs)
  : result (gmap string value) :=
  let s := fetch_settings self kw in
  html ← _retreive_content url;
  if negb (truthy (VStr html)) then
    Raise (LassieError (Message "There was no content to parse."))
  else
    let soup := BeautifulSoup E (clean_text E html) (parser s) in
    let data : gmap string value :=
      <["images" := VList []]> {["videos" := VList []]} in
    data ← (if truthy (open_graph s) then
              update_with (_filter_meta_data
                [OStr "open_graph"; OSoup soup; ODict data; OStr url])
            else Return data);
    data ← (if truthy (twitter_card s) then
              update_with (_filter_meta_data
                [OStr "twitter_card"; OSoup soup; ODict data; OStr url])
            else Return data);
    data ← update_with (_filter_meta_data
              [OStr "generic"; OSoup soup; ODict data; OStr url]);
    data ← (if truthy (touch_icon s) then
              update_with (_filter_link_tag_data
                [OStr "touch_icon"; OSoup soup; ODict data; OStr url])
            else Return data);
    data ← (if truthy (favicon s) then
              update_with (_filter_link_tag_data
                [OStr "favicon"; OSoup soup; ODict data; OStr url])
            else Return data);
    '(soup, data) ← (if truthy (all_images s) then
                       '(soup', data') ← _find_all_images
                                           [OSoup soup; ODict data];
                       Return (soup', dict_update data' data')
                     else Return (soup, data));
    let data := if negb (contains data "url") then <["url" := VStr url]> data
                else data in
    if negb (contains data "title") then
      title ← title_string soup;
      Return (<["title" := title]> data)
    else Return data.

End Methods.

(** ** The collaborators, modelled *)

(** Modelled from the spec: [convert_to_int] of [lassie/utils.py], which
    is not among the sources.  "Parses a string to an integer; on failure
    (non-numeric, empty, absent) yields absent"; "applied to an
    already-integer-like normalized value returns the same integer". *)
Definition digit_of (c : ascii) : option Z :=
  let n := Z.of_nat (nat_of_ascii c) in
  if ((48 <=? n) && (n <=? 57))%Z then Some (n - 48)%Z else None.

Fixpoint parse_digits (acc : Z) (s : string) : option Z :=
  match s with
  | EmptyString => Some acc
  | String c s' =>
      match digit_of c with
      | Some d => parse_digits (10 * acc + d) s'
      | None => None
      end
  end.

Definition parse_int (s : string) : option Z :=
  match s with
  | EmptyString => None
  | String "-" (String c s') => Z.opp <$> parse_digits 0 (String c s')
  | _ => parse_digits 0 s
  end.

Definition spec_convert_to_int (v : value) : value :=
  match v with
  | VInt z => VInt z
  | VStr s => match parse_int s with Some z => VInt z | None => VNone end
  | _ => VNone
  end.

(** Modelled from the spec: [urljoin] of [lassie/compat.py], which is not
    among the sources, for the references the spec's examples use: one
    that "begins with a scheme indicator" is returned as it is, one that
    begins with a slash replaces the path of the base, any other replaces
    the last segment of the path of the base. *)
Definition has_scheme (s : string) : bool :=
  startswith s "http://" || startswith s "https://".

Fixpoint until_slash (s : string) : string * string :=
  match s with
  | EmptyString => ("", "")
  | String c s' =>
      if Ascii.eqb c "/" then ("", s)
      else let '(a, p) := until_slash s' in (String c a, p)
  end.

Fixpoint has_slash (s : string) : bool :=
  match s with
  | EmptyString => false
  | String c s' => Ascii.eqb c "/" || has_slash s'
  end.

Fixpoint dirname (s : string) : string :=
  match s with
  | EmptyString => "/"
  | String c s' => if has_slash s' then String c (dirname s')
                   else if Ascii.eqb c "/" then "/" else ""
  end.

Definition split_scheme (base : string) : string * string :=
  if startswith base "https://" then ("https://", String.substring 8 (String.length base - 8) base)
  else if startswith base "http://" then ("http://", String.substring 7 (String.length base - 7) base)
  else ("", base).

Definition spec_urljoin (base url : string) : string :=
  if has_scheme url then url
  else
    let '(scheme, rest) := split_scheme base in
    let '(authority, path) := until_slash rest in
    if startswith url "/" then scheme ++ authority ++ url
    else scheme ++ authority ++ dirname path ++ url.

(** Modelled from the spec: [FILTER_MAPS] of [lassie/filters.py], which
    is not among the sources.  One entry per source ([open_graph],
    [twitter_card], [generic], [touch_icon], [favicon]) with its matching
    key and pattern, its map from matched attribute value to output field
    name and, for the meta sources, the prefixes of the image and video
    properties. *)
Definition spec_open_graph : meta_filter :=
  {| mf_pattern := fun s => startswith s "og:";
     mf_key := "property";
     mf_map := list_to_map
       [("og:url", "url"); ("og:title", "title");
        ("og:description", "description");
        ("og:image", "src"); ("og:image:width", "width");
        ("og:image:height", "height"); ("og:image:type", "type");
        ("og:video", "src"); ("og:video:width", "width");
        ("og:video:height", "height"); ("og:video:type", "type")];
     mf_image_key := "og:image";
     mf_video_key := "og:video" |}.

Definition spec_twitter_card : meta_filter :=
  {| mf_pattern := fun s => startswith s "twitter:";
     mf_key := "name";
     mf_map := list_to_map
       [("twitter:url", "url"); ("twitter:title", "title");
        ("twitter:description", "description");
        ("twitter:image", "src"); ("twitter:image:width", "width");
        ("twitter:image:height", "height");
        ("twitter:player", "src"); ("twitter:player:width", "width");
        ("twitter:player:height", "height")];
     mf_image_key := "twitter:image";
     mf_video_key := "twitter:player" |}.

Definition spec_generic : meta_filter :=
  {| mf_pattern := fun s =>
       startswith s "description" || startswith s "keywords"
       || startswith s "title";
     mf_key := "name";
     mf_map := list_to_map
       [("description", "description"); ("keywords", "keywords");
        ("title", "title")];
     mf_image_key := "";
     mf_video_key := "" |}.

Definition spec_touch_icon : link_filter :=
  {| lf_pattern := fun s => startswith s "apple-touch-icon";
     lf_key := "rel";
     lf_type := "touch_icon" |}.

Definition spec_favicon : link_filter :=
  {| lf_pattern := fun s => String.eqb s "shortcut icon" || String.eqb s "icon";
     lf_key := "rel";
     lf_type := "favicon" |}.

(** An environment with the modelled collaborators, for a given network
    and a given parser. *)
Definition spec_env (get : string → string + string)
    (parse : string → value → Soup) : Env :=
  {| requests_get := get;
     clean_text := fun s => s;
     BeautifulSoup := parse;
     urljoin_str := spec_urljoin;
     convert_to_int := spec_convert_to_int;
     FILTER_MAPS_meta := list_to_map
       [("open_graph", spec_open_graph); ("twitter_card", spec_twitter_card);
        ("generic", spec_generic)];
     FILTER_MAPS_link := list_to_map
       [("touch_icon", spec_touch_icon); ("favicon", spec_favicon)] |}.

(** A network that serves one document at every address, and a parser
    that yields one tree. *)
Definition one_page (html : string) (soup : Soup) : Env :=
  spec_env (fun _ => inl html) (fun _ _ => soup).

Definition meta_tag (key prop content : string) : Tag :=
  {| tag_name := "meta";
     tag_attrs := <[key := VStr prop]> {["content" := VStr content]};
     tag_string := VNone |}.

Definition title_tag (text : string) : Tag :=
  {| tag_name := "title"; tag_attrs := ∅; tag_string := VStr text |}.

Definition link_tag (rel href : string) : Tag :=
  {| tag_name := "link";
     tag_attrs := <["rel" := VStr rel]> {["href" := VStr href]};
     tag_string := VNone |}.

Definition img_tag (attrs : list (string * string)) : Tag :=
  {| tag_name := "img";
     tag_attrs := list_to_map (prod_map id VStr <$> attrs);
     tag_string := VNone |}.

Definition empty_data : gmap string value :=
  <["images" := VList []]> {["videos" := VList []]}.

(** ** The documents of the scenarios *)

(** [<meta property="og:title" content="T">],
    [<meta property="og:image" content="/i.png">] and
    [<meta name="description" content="D">]. *)
Definition og_page : Soup :=
  [meta_tag "property" "og:title" "T";
   meta_tag "property" "og:image" "/i.png";
   meta_tag "name" "description" "D"].

(** A document with only [<title>Hello</title>]. *)
Definition hello_page : Soup := [title_tag "Hello"].

(** A title given both as Open Graph and as a generic meta tag. *)
Definition both_titles_page : Soup :=
  [meta_tag "property" "og:title" "from og";
   meta_tag "name" "title" "from generic"].

(** One Open Graph image given relative to the page. *)
Definition relative_image_page : Soup :=
  [meta_tag "property" "og:image" "img.png"].

(** Two Open Graph image tags with absolute addresses, and a video spread
    over three tags. *)
Definition scattered_page : Soup :=
  [meta_tag "property" "og:image" "http://cdn.test/a.png";
   meta_tag "property" "og:video" "movie.mp4";
   meta_tag "property" "og:image" "http://cdn.test/b.png";
   meta_tag "property" "og:video:width" "640";
   meta_tag "property" "og:video:type" "video/mp4"].

(** One body image with a width and a height. *)
Definition sized_image_page : Soup :=
  [img_tag [("src", "a.png"); ("width", "10"); ("height", "20")]].

(** Two identical favicon links. *)
Definition favicon_page : Soup :=
  [link_tag "icon" "/f.ico"; title_tag "t"; link_tag "icon" "/f.ico"].

(** The first of the three meta passes that [fetch] runs under the
    settings [s]. *)
Definition first_meta_source (s : Lassie) : string :=
  if truthy (open_graph s) then "open_graph"
  else if truthy (twitter_card s) then "twitter_card"
  else "generic".

(** Spec §4.1, [resolve_url(base_url, raw)], in the spec's words: "if
    [raw] already looks absolute (begins with a scheme indicator), return
    as-is; otherwise join it against [base_url]". *)
Definition resolve_url (E : Env) (base_url raw : string) : string :=
  if has_scheme raw then raw else urljoin_str E base_url raw.

(** The Image Record a link pass builds for the address [src]:
    [{'src': src, 'type': type}]. *)
Definition link_record (type : string) (src : value) : value :=
  VDict (<["type" := VStr type]> {["src" := src]}).

(** Four favicon links: two alike and relative, one absolute, one
    without [href]; and a title between them. *)
Definition icons_page : Soup :=
  [link_tag "icon" "/f.ico";
   title_tag "t";
   link_tag "icon" "/f.ico";
   link_tag "icon" "https://cdn.test/g.ico";
   {| tag_name := "link";
      tag_attrs := {["rel" := VStr "icon"]};
      tag_string := VNone |}].

Definition is_img (t : Tag) : bool := String.eqb (tag_name t) "img".

(** The dictionary [_find_all_images] appends for the element [image]. *)
Definition body_image (E : Env) (image : Tag) : gmap string value :=
  let img : gmap string value :=
    <["src" := tag_get image "src" VNone]>
      (<["alt" := tag_get image "alt" (VStr "")]>
         {["type" := VStr "body_image"]}) in
  let width := convert_to_int E (tag_get image "width" VNone) in
  if truthy width then <["width" := width]> img else img.

(** The element [_find_all_images] leaves in the tree in place of [t]. *)
Definition height_written (E : Env) (t : Tag) : Tag :=
  if is_img t then
    let height := convert_to_int E (tag_get t "height" VNone) in
    if truthy height then tag_set t "height" height else t
  else t.

(** The entry [k: v] of a Video Record comes from a matched element whose
    property has the video prefix and maps to [k]. *)
Definition video_entry (E : Env) (meta : meta_filter) (html : list Tag)
    (k : string) (v : value) : Prop :=
  ∃ line prop,
    line ∈ html
    ∧ tag_attrs line !! mf_key meta = Some (VStr prop)
    ∧ mf_map meta !! prop = Some k
    ∧ startswith prop (mf_video_key meta) = true
    ∧ coerce_value E meta prop (tag_get line "content" VNone) = Return v.

(** What the loop of [_filter_meta_data] keeps true of its variables,
    for the dictionary [data0] the method is called with. *)
Record meta_invariant (E : Env) (meta : meta_filter) (html : list Tag)
    (data0 : gmap string value) (st : meta_locals) : Prop := {
  inv_keep : ∀ k v, data0 !! k = Some v → l_data st !! k = Some v;
  inv_image_prop :
    l_image st ≠ ∅ → l_image_prop st = Some (mf_image_key meta);
  inv_video : ∀ k v, l_video st !! k = Some v → video_entry E meta html k v;
}.

(** ** Notions used to state what the passes leave in the result *)

(** The entry [k: v] of the result comes from a matched element whose
    property the map sends to [k]. *)
Definition data_entry (E : Env) (meta : meta_filter) (html : list Tag)
    (k : string) (v : value) : Prop :=
  ∃ line prop,
    line ∈ html
    ∧ tag_attrs line !! mf_key meta = Some (VStr prop)
    ∧ mf_map meta !! prop = Some k
    ∧ coerce_value E meta prop (tag_get line "content" VNone) = Return v.

(** A string that begins with [http]. *)
Definition http_string (v : value) : Prop :=
  ∃ s, v = VStr s ∧ startswith s "http" = true.

(** The variables of the loop of [_filter_meta_data] before its first
    iteration. *)
Definition start_locals (data : gmap string value) : meta_locals :=
  {| l_data := data; l_image := ∅; l_video := ∅;
     l_image_prop := None; l_video_prop := None |}.

(** The frame of a call of [_filter_meta_data] with the three arguments
    it declares. *)
Definition meta_frame (source : string) (soup : Soup)
    (data : gmap string value) : frame :=
  [("source", OStr source); ("soup", OSoup soup); ("data", ODict data)].

(** [<meta name="keywords">], without content. *)
Definition bare_keywords_tag : Tag :=
  {| tag_name := "meta";
     tag_attrs := {["name" := VStr "keywords"]};
     tag_string := VNone |}.

(** A title given by all three meta sources, and an Open Graph
    description. *)
Definition three_sources_page : Soup :=
  [meta_tag "property" "og:title" "from og";
   meta_tag "property" "og:description" "about";
   meta_tag "name" "twitter:title" "from twitter";
   meta_tag "name" "title" "from generic";
   meta_tag "name" "keywords" "a,b"].

(** A title, two images and a paragraph. *)
Definition gallery_page : Soup :=
  [title_tag "Gallery";
   img_tag [("src", "a.png"); ("width", "0"); ("height", "20")];
   {| tag_name := "p"; tag_attrs := ∅; tag_string := VStr "text" |};
   img_tag [("src", "b.png"); ("alt", "B"); ("width", "30")]].

#[local] Open Scope list_scope.

(** * Properties *)

(** ** The monad and the loop *)

Lemma bind_Return {A B} (m : result A) (f : A → result B) (b : B) :
  m ≫= f = Return b → ∃ a, m = Return a ∧ f a = Return b.
Proof. destruct m as [a|e]; [eauto | discriminate]. Qed.

Lemma bind_Raise {A B} (e : exn) (f : A → result B) :
  Raise e ≫= f = Raise e.
Proof. reflexivity. Qed.

(** A property of the state that every iteration keeps holds when the
    loop returns. *)
Lemma for_each_invariant {A S} (P : S → Prop) (body : S → A → result S) l :
  (∀ s x s', x ∈ l → P s → body s x = Return s' → P s') →
  ∀ s s', P s → for_each body l s = Return s' → P s'.
Proof.
  induction l as [|x l IH]; intros Hstep s s' Hs Hrun; simpl in Hrun.
  - by inversion Hrun; subst.
  - apply bind_Return in Hrun as (s1 & Hx & Hrest).
    eapply IH; [| |exact Hrest].
    + intros ? y ? Hy. apply Hstep. by right.
    + eapply Hstep; [left | exact Hs | exact Hx].
Qed.

Lemma dict_update_self (d : gmap string value) : dict_update d d = d.
Proof. apply map_union_idemp. Qed.

Lemma update_with_Raise e : update_with (Raise e) = Raise e.
Proof. reflexivity. Qed.

Lemma update_with_Return d : update_with (Return d) = Return d.
Proof. unfold update_with. simpl. by rewrite dict_update_self. Qed.

(** ** Calls *)

(** [_filter_meta_data] declares three parameters besides [self]: a call
    with four arguments raises [TypeError] before the body runs. *)
Lemma filter_meta_data_four_args E (a b c d : object) :
  _filter_meta_data E [a; b; c; d] =
    Raise (TypeError_arity "_filter_meta_data" ["source"; "soup"; "data"]
             [a; b; c; d]).
Proof. reflexivity. Qed.

(** No call of [_filter_meta_data] binds the name [url]. *)
Lemma filter_meta_data_url_unbound (args : list object) (f : frame) :
  bind_args "_filter_meta_data" _filter_meta_data_params args = Return f →
  load f "url" = Raise (NameError "url").
Proof.
  unfold bind_args, _filter_meta_data_params.
  destruct args as [|a [|b [|c [|d args]]]]; simpl; try discriminate.
  intros [= <-]. reflexivity.
Qed.

Lemma truthy_VStr_nonempty (s : string) : s ≠ "" → truthy (VStr s) = true.
Proof.
  intros Hs. simpl. destruct (String.eqb_spec s ""); [done | reflexivity].
Qed.

(** Whatever the settings, the first meta pass that a call of [fetch]
    reaches is the call that raises. *)
Lemma fetch_raises E self url kw html :
  requests_get E url = inl html →
  html ≠ "" →
  fetch E self url kw =
    Raise (TypeError_arity "_filter_meta_data" ["source"; "soup"; "data"]
      [OStr (first_meta_source (fetch_settings self kw));
       OSoup (BeautifulSoup E (clean_text E html)
                (parser (fetch_settings self kw)));
       ODict empty_data;
       OStr url]).
Proof.
  intros Hget Hhtml. unfold fetch, _retreive_content, first_meta_source.
  rewrite Hget. cbn [mbind result_bind].
  rewrite (truthy_VStr_nonempty _ Hhtml). cbn [negb].
  destruct (truthy (open_graph (fetch_settings self kw))).
  { by rewrite filter_meta_data_four_args. }
  cbn [mbind result_bind].
  destruct (truthy (twitter_card (fetch_settings self kw))).
  { by rewrite filter_meta_data_four_args. }
  cbn [mbind result_bind].
  by rewrite filter_meta_data_four_args.
Qed.

(** ** [fetch] *)

(** C10, as the code has it.  For every call of [fetch] whose retrieved
    content is not empty, execution reaches the first meta pass that the
    settings enable (Open Graph, else Twitter Card, else the unconditional
    generic pass); that pass calls [_filter_meta_data] with the four
    arguments (source, soup, data, url) while the method declares three
    besides [self], so [fetch] raises [TypeError] and returns no result;
    and in no call of [_filter_meta_data] is the name [url], which its
    image branch reads, bound by a parameter. *)
Theorem fetch_never_returns E self url kw html :
  requests_get E url = inl html →
  html ≠ "" →
  fetch E self url kw =
    Raise (TypeError_arity "_filter_meta_data" ["source"; "soup"; "data"]
      [OStr (first_meta_source (fetch_settings self kw));
       OSoup (BeautifulSoup E (clean_text E html)
                (parser (fetch_settings self kw)));
       ODict empty_data;
       OStr url])
  ∧ (∀ data, fetch E self url kw ≠ Return data)
  ∧ (∀ args f,
       bind_args "_filter_meta_data" _filter_meta_data_params args = Return f →
       load f "url" = Raise (NameError "url")).
Proof.
  intros Hget Hhtml. split; [|split].
  - by apply fetch_raises.
  - intros data. by rewrite (fetch_raises _ _ _ _ _ Hget Hhtml).
  - apply filter_meta_data_url_unbound.
Qed.

Lemma fetch_never_returns_witness :
  fetch (one_page "<html></html>" hello_page) __init__ "https://site.test/p"
    {| kw_open_graph := Some (VBool false);
       kw_twitter_card := Some (VBool false);
       kw_touch_icon := None; kw_favicon := None; kw_all_images := None;
       kw_parser := None |} =
    Raise (TypeError_arity "_filter_meta_data" ["source"; "soup"; "data"]
      [OStr "generic"; OSoup hello_page; ODict empty_data;
       OStr "https://site.test/p"]).
Proof.
  refine (proj1 (fetch_never_returns (one_page "<html></html>" hello_page)
                   __init__ "https://site.test/p" _ "<html></html>"
                   eq_refl _)).
  discriminate.
Defined.

(** With the default settings the call that raises is the Open Graph
    pass: execution does not reach the generic pass. *)
Lemma fetch_stops_at_open_graph_pass :
  ∃ args,
    fetch (one_page "<html></html>" hello_page) __init__
      "https://site.test/p" no_kwargs =
      Raise (TypeError_arity "_filter_meta_data" ["source"; "soup"; "data"]
               args)
    ∧ head args = Some (OStr "open_graph")
    ∧ head args ≠ Some (OStr "generic").
Proof.
  eexists. split; [|split].
  - rewrite (fetch_raises (one_page "<html></html>" hello_page) __init__
               "https://site.test/p" no_kwargs "<html></html>" eq_refl
               ltac:(discriminate)).
    reflexivity.
  - reflexivity.
  - discriminate.
Qed.

(** C9.  When [requests.get] raises its [RequestException], [fetch]
    raises a [LassieError] built from it; when the response text is
    empty, [fetch] raises a [LassieError] and returns no result. *)
Theorem fetch_error_policy E self url kw :
  (∀ e, requests_get E url = inr e →
        fetch E self url kw = Raise (LassieError (Caught e)))
  ∧ (requests_get E url = inl "" →
     fetch E self url kw =
       Raise (LassieError (Message "There was no content to parse."))).
Proof.
  split.
  - intros e He. unfold fetch, _retreive_content. by rewrite He.
  - intros He. unfold fetch, _retreive_content. by rewrite He.
Qed.

Lemma fetch_error_policy_witness :
  fetch (spec_env (fun _ => inr "connection refused") (fun _ _ => []))
    __init__ "https://site.test/p" no_kwargs =
    Raise (LassieError (Caught "connection refused"))
  ∧ fetch (one_page "" og_page) __init__ "https://site.test/p" no_kwargs =
    Raise (LassieError (Message "There was no content to parse.")).
Proof.
  split.
  - exact (proj1 (fetch_error_policy
                    (spec_env (fun _ => inr "connection refused")
                       (fun _ _ => []))
                    __init__ "https://site.test/p" no_kwargs)
             "connection refused" eq_refl).
  - exact (proj2 (fetch_error_policy (one_page "" og_page)
                    __init__ "https://site.test/p" no_kwargs) eq_refl).
Defined.

(** ** [merge_settings] *)

Lemma merge_settings_None (class_setting : value) :
  merge_settings VNone class_setting = class_setting.
Proof. reflexivity. Qed.

Lemma merge_settings_supplied (fetch_setting class_setting : value) :
  is_None fetch_setting = false →
  merge_settings fetch_setting class_setting = fetch_setting.
Proof.
  intros H. unfold merge_settings. rewrite H.
  by destruct (is_None class_setting).
Qed.

(** The parser does fall back to the one of the instance. *)
Lemma fetch_settings_parser_default (self : Lassie) kw :
  kw_parser kw = None → truthy (parser self) = true →
  parser (fetch_settings self kw) = parser self.
Proof.
  intros Hkw Hp. unfold fetch_settings, fetch_params. rewrite Hkw. simpl.
  unfold py_or. simpl. unfold merge_settings.
  destruct (parser self); simpl in *; try done.
Qed.

(** C8, on the code.  An option the caller leaves out takes the default
    of the signature of [fetch], which is never [None], so the setting of
    the instance is not consulted: whatever the instance holds, the five
    flags of a call without keyword arguments are [True], [True], [True],
    [True] and [False]. *)
Theorem fetch_settings_ignore_instance (self : Lassie) :
  open_graph (fetch_settings self no_kwargs) = VBool true
  ∧ twitter_card (fetch_settings self no_kwargs) = VBool true
  ∧ touch_icon (fetch_settings self no_kwargs) = VBool true
  ∧ favicon (fetch_settings self no_kwargs) = VBool true
  ∧ all_images (fetch_settings self no_kwargs) = VBool false.
Proof.
  unfold fetch_settings, fetch_params, merge_settings. simpl.
  repeat split;
    [destruct (open_graph self) | destruct (twitter_card self)
    | destruct (touch_icon self) | destruct (favicon self)
    | destruct (all_images self)]; reflexivity.
Qed.

(** ** The scenarios, on the code *)

(** Runs [fetch] up to its first meta pass on a page whose text is
    [html]. *)
Ltac fetch_up_to_first_pass html :=
  match goal with
  | |- fetch ?E ?self ?url ?kw = _ =>
      rewrite (fetch_raises E self url kw html eq_refl ltac:(discriminate));
      reflexivity
  end.

(** C1, on the code.  For a document that gives its title both as an Open
    Graph and as a generic meta tag, [fetch] raises [TypeError] at its
    first meta pass: there is no final result to hold either value. *)
Theorem fetch_both_titles_raises :
  fetch (one_page "<html></html>" both_titles_page) __init__
    "https://site.test/p" no_kwargs =
    Raise (TypeError_arity "_filter_meta_data" ["source"; "soup"; "data"]
      [OStr "open_graph"; OSoup both_titles_page; ODict empty_data;
       OStr "https://site.test/p"]).
Proof. fetch_up_to_first_pass "<html></html>". Qed.

(** C2, on the code.  On the Open Graph page of the scenario [fetch]
    raises [TypeError]; and the Open Graph pass called with the three
    arguments it declares raises [NameError] at the relative image. *)
Theorem fetch_og_page_raises :
  fetch (one_page "<html></html>" og_page) __init__
    "https://site.test/p" no_kwargs =
    Raise (TypeError_arity "_filter_meta_data" ["source"; "soup"; "data"]
      [OStr "open_graph"; OSoup og_page; ODict empty_data;
       OStr "https://site.test/p"])
  ∧ _filter_meta_data (one_page "<html></html>" og_page)
      [OStr "open_graph"; OSoup og_page; ODict empty_data] =
    Raise (NameError "url").
Proof.
  split.
  - fetch_up_to_first_pass "<html></html>".
  - vm_compute. reflexivity.
Qed.

(** C6, on the code.  On a document with only a title [fetch] raises
    [TypeError] before the fallbacks run; and on a document without a
    title element the fallback [soup.title.string] raises
    [AttributeError] instead of giving the empty string. *)
Theorem fetch_hello_page_raises :
  fetch (one_page "<title>Hello</title>" hello_page) __init__
    "https://site.test/p" no_kwargs =
    Raise (TypeError_arity "_filter_meta_data" ["source"; "soup"; "data"]
      [OStr "open_graph"; OSoup hello_page; ODict empty_data;
       OStr "https://site.test/p"])
  ∧ title_string [] = Raise (AttributeError "NoneType" "string").
Proof.
  split.
  - fetch_up_to_first_pass "<title>Hello</title>".
  - reflexivity.
Qed.

(** C4, on the code.  The meta pass reads the base address from the name
    [url], which none of its parameters binds: a relative image raises
    [NameError] when the pass is called with its three arguments, and
    [fetch], which passes the address as a fourth, raises [TypeError]. *)
Theorem relative_image_raises :
  _filter_meta_data (one_page "<html></html>" relative_image_page)
    [OStr "open_graph"; OSoup relative_image_page; ODict empty_data] =
    Raise (NameError "url")
  ∧ fetch (one_page "<html></html>" relative_image_page) __init__
      "https://example.com/a/" no_kwargs =
    Raise (TypeError_arity "_filter_meta_data" ["source"; "soup"; "data"]
      [OStr "open_graph"; OSoup relative_image_page; ODict empty_data;
       OStr "https://example.com/a/"]).
Proof.
  split.
  - vm_compute. reflexivity.
  - fetch_up_to_first_pass "<html></html>".
Qed.

(** The two examples of the spec hold of the modelled join, which the
    link passes reach. *)
Lemma spec_urljoin_examples :
  resolve_url (one_page "" []) "https://example.com/a/" "img.png" =
    "https://example.com/a/img.png"
  ∧ resolve_url (one_page "" []) "https://example.com"
      "https://cdn.example.com/x.png" = "https://cdn.example.com/x.png".
Proof. split; reflexivity. Qed.

(** ** The link passes *)

Lemma getitem_list_images (data : gmap string value) k (l : list value) :
  data !! k = Some (VList l) → getitem_list data k = Return l.
Proof. intros H. unfold getitem_list, getitem. by rewrite H. Qed.

Lemma mapM_cons {A B} (f : A → result B) (x : A) (l : list A) :
  mapM f (x :: l) = (y ← f x; k ← mapM f l; Return (y :: k)).
Proof. reflexivity. Qed.

(** One iteration of the loop of a link pass: the address is joined and
    its record appended. *)
Lemma link_body_step E link url (data : gmap string value) imgs line :
  data !! "images" = Some (VList imgs) →
  link_body E link url data line =
    (src ← urljoin E url (tag_get line "href" VNone);
     Return (<["images" := VList (imgs ++ [link_record (lf_type link) src])]>
               data)).
Proof.
  intros Hd. unfold link_body.
  by rewrite (getitem_list_images _ _ _ Hd).
Qed.

(** The loop of a link pass: the addresses are joined in document order
    and one record per address is appended; a join that raises ends the
    pass. *)
Lemma link_loop E link url (html : list Tag) :
  ∀ (data : gmap string value) (imgs : list value),
    data !! "images" = Some (VList imgs) →
    for_each (link_body E link url) html data =
      (srcs ← mapM (fun line => urljoin E url (tag_get line "href" VNone))
                html;
       Return (<["images" :=
                  VList (imgs ++ (link_record (lf_type link) <$> srcs))]>
                 data)).
Proof.
  induction html as [|line html IH]; intros data imgs Hd.
  - cbn. rewrite app_nil_r. by rewrite insert_id.
  - cbn [for_each]. rewrite (link_body_step _ _ _ _ _ _ Hd), mapM_cons.
    destruct (urljoin E url (tag_get line "href" VNone)) as [src|e];
      [|reflexivity].
    cbn [mbind result_bind].
    rewrite (IH _ (imgs ++ [link_record (lf_type link) src]))
      by apply lookup_insert_eq.
    destruct (mapM _ html) as [srcs|e]; [|reflexivity].
    cbn [mbind result_bind].
    by rewrite insert_insert_eq, fmap_cons, <- app_assoc.
Qed.

(** The join returns for an address that is missing or a string, as the
    addresses of a parsed document are. *)
Lemma urljoin_returns E url (href : value) :
  href = VNone ∨ (∃ h, href = VStr h) →
  ∃ src, urljoin E url href = Return src.
Proof.
  intros [->|[h ->]]; unfold urljoin;
    destruct (String.eqb url ""); cbn; eauto.
  destruct (String.eqb h ""); cbn; eauto.
Qed.

(** C7.  A link pass appends to [images], in document order and after
    the images already there, one Image Record
    [{src: urljoin(url, href), type: source}] for every link element
    that matches the key and pattern of the source, whatever the
    document, and leaves the rest of the result as it was: nothing is
    suppressed and repeated matches are kept.  The address of a record
    is what the join of the page address and the [href] of the element
    returns, for an absolute [href] and for a missing one as well.  The
    table gives the source its own name as type. *)
Theorem link_pass_appends E source link soup data imgs url :
  FILTER_MAPS_link E !! source = Some link →
  lf_type link = source →
  data !! "images" = Some (VList imgs) →
  _filter_link_tag_data E [OStr source; OSoup soup; ODict data; OStr url] =
    (srcs ← mapM (fun line => urljoin E url (tag_get line "href" VNone))
              (find_all soup "link" (lf_key link) (lf_pattern link));
     Return (<["images" := VList (imgs ++ (link_record source <$> srcs))]>
               data)).
Proof.
  intros Hlink Htype Hd.
  unfold _filter_link_tag_data. cbn [bind_args length Nat.eqb
    _filter_link_tag_data_params mbind result_bind zip zip_with].
  cbn. unfold getitem. rewrite Hlink. cbn [mbind result_bind].
  rewrite (link_loop E link url _ data imgs Hd).
  by rewrite Htype.
Qed.

Lemma link_pass_appends_witness :
  _filter_link_tag_data (one_page "" [])
    [OStr "favicon"; OSoup icons_page; ODict empty_data;
     OStr "https://site.test/p"] =
    Return (<["images" :=
               VList [link_record "favicon" (VStr "https://site.test/f.ico");
                      link_record "favicon" (VStr "https://site.test/f.ico");
                      link_record "favicon" (VStr "https://cdn.test/g.ico");
                      link_record "favicon" (VStr "https://site.test/p")]]>
              empty_data).
Proof.
  exact (eq_trans
           (link_pass_appends (one_page "" []) "favicon" spec_favicon
              icons_page empty_data [] "https://site.test/p"
              eq_refl eq_refl eq_refl)
           eq_refl).
Defined.

(** When every matched element has a missing or a string [href], the
    pass returns, with as many addresses as matched elements. *)
Lemma link_addresses_return E url (html : list Tag) :
  Forall (fun line => tag_get line "href" VNone = VNone
                      ∨ ∃ h, tag_get line "href" VNone = VStr h) html →
  ∃ srcs,
    mapM (fun line => urljoin E url (tag_get line "href" VNone)) html
    = Return srcs
    ∧ length srcs = length html.
Proof.
  induction 1 as [|line html Hline _ (srcs & Hsrcs & Hlen)].
  - by exists [].
  - destruct (urljoin_returns E url _ Hline) as (src & Hsrc).
    exists (src :: srcs). rewrite mapM_cons, Hsrc, Hsrcs. split; [done|].
    simpl. by rewrite Hlen.
Qed.

(** ** The body-image pass *)

Section BodyImages.

Variable E : Env.

Lemma append_to_images (data : gmap string value) imgs x :
  data !! "images" = Some (VList imgs) →
  append_to data "images" x =
    Return (<["images" := VList (imgs ++ [x])]> data).
Proof.
  intros Hd. unfold append_to. by rewrite (getitem_list_images _ _ _ Hd).
Qed.

(** One iteration, at the position of the element [t]: the record goes
    to [images], the height goes to the element. *)
Lemma images_body_step (pre : list Tag) t soup (data : gmap string value)
    imgs :
  is_img t = true →
  data !! "images" = Some (VList imgs) →
  images_body E (pre ++ t :: soup, data) (length pre) =
    Return (pre ++ height_written E t :: soup,
            <["images" := VList (imgs ++ [VDict (body_image E t)])]> data).
Proof.
  intros Himg Hd. unfold images_body, height_written, body_image.
  cbv beta iota. rewrite list_lookup_middle by done. rewrite Himg.
  rewrite (append_to_images _ _ _ Hd). cbn [mbind result_bind].
  destruct (truthy (convert_to_int E (tag_get t "height" VNone))).
  - replace (length pre) with (length pre + 0) at 1 by lia.
    by rewrite insert_app_r.
  - reflexivity.
Qed.

Lemma images_loop (soup : Soup) :
  ∀ (pre : list Tag) (data : gmap string value) (imgs : list value),
    data !! "images" = Some (VList imgs) →
    for_each (images_body E) (findAll_from (length pre) soup "img")
      (pre ++ soup, data) =
      Return (pre ++ (height_written E <$> soup),
              <["images" :=
                 VList (imgs ++ (VDict ∘ body_image E <$>
                                   List.filter is_img soup))]> data).
Proof.
  induction soup as [|t soup IH]; intros pre data imgs Hd.
  - simpl. rewrite !app_nil_r. by rewrite insert_id.
  - cbn [findAll_from List.filter]. fold (is_img t).
    assert (Hlen : ∀ x : Tag, S (length pre) = length (pre ++ [x])).
    { intros x. rewrite length_app. simpl. lia. }
    destruct (is_img t) eqn:Himg.
    + cbn [for_each]. rewrite (images_body_step _ _ _ _ _ Himg Hd).
      cbn [mbind result_bind].
      rewrite (Hlen (height_written E t)), (cons_middle _ pre soup), app_assoc.
      rewrite (IH _ _ (imgs ++ [VDict (body_image E t)]))
        by apply lookup_insert_eq.
      rewrite insert_insert_eq, fmap_cons, <- !app_assoc. reflexivity.
    + rewrite (Hlen t), (cons_middle _ pre soup), app_assoc.
      rewrite (IH _ _ imgs Hd). rewrite fmap_cons, <- app_assoc.
      unfold height_written at 2. by rewrite Himg.
Qed.

(** [_find_all_images] returns, with one record per img element, in
    document order, after the images the result already holds. *)
Lemma find_all_images_returns (soup : Soup) (data : gmap string value) imgs :
  data !! "images" = Some (VList imgs) →
  _find_all_images E [OSoup soup; ODict data] =
    Return (height_written E <$> soup,
            <["images" :=
               VList (imgs ++ (VDict ∘ body_image E <$>
                                 List.filter is_img soup))]> data).
Proof.
  intros Hd. unfold _find_all_images. cbn. unfold findAll.
  exact (images_loop soup [] data imgs Hd).
Qed.

(** The record of an element never has a height, whatever the element
    carries: the height is written to the element. *)
Lemma body_image_no_height (t : Tag) : body_image E t !! "height" = None.
Proof.
  unfold body_image.
  destruct (truthy _); by repeat (rewrite lookup_insert_ne by done).
Qed.

(** The address of the record is the attribute as the element has it. *)
Lemma body_image_src (t : Tag) :
  body_image E t !! "src" = Some (tag_get t "src" VNone).
Proof.
  unfold body_image. destruct (truthy _).
  - rewrite lookup_insert_ne by done. apply lookup_insert_eq.
  - apply lookup_insert_eq.
Qed.

End BodyImages.

(** C5, on the code.  For an img element with a width and a height the
    body-image pass appends a record with the width and without the
    height, which it writes to the element of the tree instead; the
    address of the record is the attribute as written, not made
    absolute. *)
Theorem find_all_images_drops_height :
  ∃ (soup' : Soup) (image : Tag) (img : gmap string value),
    _find_all_images (one_page "" [])
      [OSoup sized_image_page; ODict empty_data] =
      Return (soup', <["images" := VList [VDict img]]> empty_data)
    ∧ img !! "width" = Some (VInt 10)
    ∧ img !! "height" = None
    ∧ img !! "src" = Some (VStr "a.png")
    ∧ img !! "alt" = Some (VStr "")
    ∧ img !! "type" = Some (VStr "body_image")
    ∧ soup' = [image]
    ∧ tag_attrs image !! "height" = Some (VInt 20).
Proof.
  do 3 eexists. split.
  - rewrite (find_all_images_returns _ sized_image_page empty_data [] eq_refl).
    reflexivity.
  - repeat split; reflexivity.
Qed.

(** ** The meta passes *)

Lemma tag_get_VStr (line : Tag) k p :
  tag_get line k VNone = VStr p → tag_attrs line !! k = Some (VStr p).
Proof.
  unfold tag_get. destruct (tag_attrs line !! k); simpl; congruence.
Qed.

Lemma contains_false {A} (d : gmap string A) k :
  contains d k = false → d !! k = None.
Proof.
  unfold contains. intros H. apply bool_decide_eq_false in H.
  by apply eq_None_not_Some.
Qed.

Lemma contains_true {A} (d : gmap string A) k :
  contains d k = true → is_Some (d !! k).
Proof. unfold contains. by intros H%bool_decide_eq_true. Qed.

Lemma truthy_VDict (d : gmap string value) :
  truthy (VDict d) = true ↔ d ≠ ∅.
Proof.
  simpl. case_bool_decide; naive_solver.
Qed.

Lemma append_to_list (d : gmap string value) k (l : list value) x :
  d !! k = Some (VList l) →
  append_to d k x = Return (<[k := VList (l ++ [x])]> d).
Proof.
  intros Hd. unfold append_to. by rewrite (getitem_list_images _ _ _ Hd).
Qed.

Section MetaPass.

Variable E : Env.
Variables (f : frame) (meta : meta_filter) (html : list Tag).
Variable data0 : gmap string value.

(** Every iteration keeps the invariant: a field is written only when
    the result does not hold it yet. *)
Lemma meta_body_invariant (st st' : meta_locals) (line : Tag) :
  line ∈ html →
  meta_invariant E meta html data0 st →
  meta_body E f meta st line = Return st' →
  meta_invariant E meta html data0 st'.
Proof.
  intros Hline Hinv. unfold meta_body.
  destruct (tag_get line (mf_key meta) VNone) as [| | |prop| |] eqn:Hprop;
    try (intros [= <-]; exact Hinv); try discriminate.
  apply tag_get_VStr in Hprop.
  destruct (mf_map meta !! prop) as [field|] eqn:Hmap;
    [|intros [= <-]; exact Hinv].
  destruct (contains (l_data st) field) eqn:Hin;
    [intros [= <-]; exact Hinv|].
  apply contains_false in Hin.
  destruct (coerce_value E meta prop (tag_get line "content" VNone))
    as [val|e] eqn:Hval; [|discriminate].
  cbn [mbind result_bind].
  destruct (truthy (VStr (mf_image_key meta))
            && startswith prop (mf_image_key meta) && truthy val).
  { intros Hrun. apply bind_Return in Hrun as (absolute & _ & Hrun).
    apply bind_Return in Hrun as (src & _ & [= <-]).
    destruct Hinv as [Hkeep _ Hvideo]. by split. }
  destruct (truthy (VStr (mf_video_key meta))
            && startswith prop (mf_video_key meta) && truthy val) eqn:Hvid.
  { intros [= <-]. destruct Hinv as [Hkeep _ Hvideo].
    split; [done | done |]. simpl. intros k v.
    destruct (decide (field = k)) as [<-|Hne].
    - rewrite lookup_insert_eq. intros [= <-].
      apply andb_prop in Hvid as [[_ Hstarts]%andb_prop _].
      by exists line, prop.
    - rewrite lookup_insert_ne by done. apply Hvideo. }
  intros [= <-]. destruct Hinv as [Hkeep _ Hvideo].
  split; [| done | done]. simpl. intros k v Hk.
  rewrite lookup_insert_ne; [by apply Hkeep|].
  intros <-. apply Hkeep in Hk. congruence.
Qed.

Lemma meta_loop_invariant (st' : meta_locals) :
  for_each (meta_body E f meta) html
    {| l_data := data0; l_image := ∅; l_video := ∅;
       l_image_prop := None; l_video_prop := None |} = Return st' →
  meta_invariant E meta html data0 st'.
Proof.
  apply (for_each_invariant (meta_invariant E meta html data0)).
  - intros s x s' Hx. by apply meta_body_invariant.
  - split; simpl; [done | done |]. intros k v. by rewrite lookup_empty.
Qed.

(** What follows the loop appends at most one record to [images], with
    the image prefix of the source as its type, and at most one to
    [videos], as the loop collected it. *)
Lemma meta_finish_appends (st : meta_locals) imgs vids data' :
  meta_invariant E meta html data0 st →
  data0 !! "images" = Some (VList imgs) →
  data0 !! "videos" = Some (VList vids) →
  meta_finish st = Return data' →
  ∃ new_images new_videos,
    data' = <["videos" := VList (vids ++ new_videos)]>
              (<["images" := VList (imgs ++ new_images)]> (l_data st))
    ∧ new_images =
        (if truthy (VDict (l_image st))
         then [VDict (<["type" := VStr (mf_image_key meta)]> (l_image st))]
         else [])
    ∧ new_videos =
        (if truthy (VDict (l_video st)) then [VDict (l_video st)] else []).
Proof.
  intros [Hkeep Hprop Hvideo] Himgs Hvids. unfold meta_finish.
  apply Hkeep in Himgs. apply Hkeep in Hvids.
  destruct (truthy (VDict (l_image st))) eqn:Himage.
  - apply truthy_VDict in Himage. rewrite (Hprop Himage).
    cbn [mbind result_bind].
    rewrite (append_to_list _ _ _ _ Himgs). cbn [mbind result_bind].
    destruct (truthy (VDict (l_video st))).
    + rewrite (append_to_list _ "videos" vids)
        by by rewrite lookup_insert_ne.
      intros [= <-]. by eexists _, _.
    + intros [= <-]. eexists _, _. split; [|done].
      rewrite app_nil_r. symmetry. apply insert_id.
      by rewrite lookup_insert_ne.
  - cbn [mbind result_bind].
    destruct (truthy (VDict (l_video st))).
    + rewrite (append_to_list _ _ _ _ Hvids).
      intros [= <-]. eexists _, _.
      split; [|done]. rewrite app_nil_r. by rewrite (insert_id _ "images").
    + intros [= <-]. eexists _, _. split; [|done].
      rewrite !app_nil_r. rewrite (insert_id _ "images") by done.
      by rewrite insert_id.
Qed.

End MetaPass.

(** A call with the three declared arguments runs the loop over the
    matched elements and then what follows the loop. *)
Lemma filter_meta_data_run E source soup (data data' : gmap string value) :
  _filter_meta_data E [OStr source; OSoup soup; ODict data] = Return data' →
  ∃ meta st,
    FILTER_MAPS_meta E !! source = Some meta
    ∧ for_each
        (meta_body E [("source", OStr source); ("soup", OSoup soup);
                      ("data", ODict data)] meta)
        (find_all soup "meta" (mf_key meta) (mf_pattern meta))
        {| l_data := data; l_image := ∅; l_video := ∅;
           l_image_prop := None; l_video_prop := None |} = Return st
    ∧ meta_finish st = Return data'.
Proof.
  unfold _filter_meta_data. cbn. unfold getitem.
  destruct (FILTER_MAPS_meta E !! source) as [meta|]; [|discriminate].
  cbn [mbind result_bind]. intros Hrun.
  apply bind_Return in Hrun as (st & Hloop & Hfinish). by exists meta, st.
Qed.

Lemma append_to_Return (d d' : gmap string value) k x :
  append_to d k x = Return d' → ∃ l, d' = <[k := VList l]> d.
Proof.
  unfold append_to. intros (l & _ & [= <-])%bind_Return. by eexists.
Qed.

Lemma meta_finish_other (st : meta_locals) data' k :
  meta_finish st = Return data' →
  k ≠ "images" → k ≠ "videos" →
  data' !! k = l_data st !! k.
Proof.
  unfold meta_finish. intros (d1 & H1 & H2)%bind_Return Hi Hv.
  assert (d1 !! k = l_data st !! k) as <-.
  { destruct (truthy (VDict (l_image st))); [|by inversion H1].
    apply bind_Return in H1 as (p & _ & (l & ->)%append_to_Return).
    by rewrite lookup_insert_ne. }
  destruct (truthy (VDict (l_video st))); [|by inversion H2].
  apply append_to_Return in H2 as (l & ->). by rewrite lookup_insert_ne.
Qed.

(** Non-overwrite: a pass called with its three declared arguments
    leaves every field the result already holds as it is. *)
Lemma meta_pass_keeps_fields E source soup (data data' : gmap string value)
    k v :
  _filter_meta_data E [OStr source; OSoup soup; ODict data] = Return data' →
  data !! k = Some v → k ≠ "images" → k ≠ "videos" →
  data' !! k = Some v.
Proof.
  intros (meta & st & _ & Hloop & Hfinish)%filter_meta_data_run Hk Hi Hv.
  rewrite (meta_finish_other _ _ _ Hfinish Hi Hv).
  by apply (inv_keep _ _ _ _ _ (meta_loop_invariant _ _ _ _ _ _ Hloop)).
Qed.

(** C3, as the code has it.  A meta pass that returns has appended at
    most one record to [images] and at most one to [videos], however many
    matched elements carry image or video properties; the image record
    has as [type] the image prefix of the filter map of the source
    ([image_key]), and every entry of the video record is a video
    property of a matched element: no type is added to it. *)
Theorem meta_pass_aggregates E source soup data imgs vids data' :
  data !! "images" = Some (VList imgs) →
  data !! "videos" = Some (VList vids) →
  _filter_meta_data E [OStr source; OSoup soup; ODict data] = Return data' →
  ∃ meta new_images new_videos,
    FILTER_MAPS_meta E !! source = Some meta
    ∧ data' !! "images" = Some (VList (imgs ++ new_images))
    ∧ data' !! "videos" = Some (VList (vids ++ new_videos))
    ∧ (length new_images ≤ 1)%nat
    ∧ (length new_videos ≤ 1)%nat
    ∧ (∀ r, r ∈ new_images →
         ∃ image, r = VDict image
                  ∧ image !! "type" = Some (VStr (mf_image_key meta)))
    ∧ (∀ r, r ∈ new_videos →
         ∃ video, r = VDict video
                  ∧ ∀ k v, video !! k = Some v →
                      video_entry E meta
                        (find_all soup "meta" (mf_key meta) (mf_pattern meta))
                        k v).
Proof.
  intros Himgs Hvids (meta & st & Hmeta & Hloop & Hfinish)%filter_meta_data_run.
  apply meta_loop_invariant in Hloop as Hinv.
  destruct (meta_finish_appends _ _ _ _ _ _ _ _ Hinv Himgs Hvids Hfinish)
    as (ni & nv & -> & Hni & Hnv).
  exists meta, ni, nv. split; [done|].
  split; [by rewrite lookup_insert_ne, lookup_insert_eq|].
  split; [by rewrite lookup_insert_eq|].
  subst ni nv. repeat split.
  - destruct (truthy (VDict (l_image st))); simpl; lia.
  - destruct (truthy (VDict (l_video st))); simpl; lia.
  - intros r Hr.
    destruct (truthy (VDict (l_image st))); [|by apply elem_of_nil in Hr].
    apply list_elem_of_singleton in Hr as ->.
    eexists. split; [done|]. apply lookup_insert_eq.
  - intros r Hr.
    destruct (truthy (VDict (l_video st))); [|by apply elem_of_nil in Hr].
    apply list_elem_of_singleton in Hr as ->.
    eexists. split; [done|]. apply (inv_video _ _ _ _ _ Hinv).
Qed.

Lemma scattered_page_pass :
  _filter_meta_data (one_page "" [])
    [OStr "open_graph"; OSoup scattered_page; ODict empty_data] =
  Return
    (<["videos" := VList
         [VDict (<["src" := VStr "movie.mp4"]>
                   (<["width" := VInt 640]>
                      {["type" := VStr "video/mp4"]}))]]>
       (<["images" := VList
            [VDict (<["type" := VStr "og:image"]>
                      {["src" := VStr "http://cdn.test/b.png"]})]]>
          empty_data)).
Proof. vm_compute. reflexivity. Qed.

Lemma meta_pass_aggregates_witness :
  ∃ meta (new_images new_videos : list value),
    FILTER_MAPS_meta (one_page "" []) !! "open_graph" = Some meta
    ∧ (length new_images ≤ 1)%nat
    ∧ (length new_videos ≤ 1)%nat
    ∧ (∀ r, r ∈ new_images →
         ∃ image, r = VDict image
                  ∧ image !! "type" = Some (VStr (mf_image_key meta))).
Proof.
  destruct (meta_pass_aggregates (one_page "" []) "open_graph" scattered_page
              empty_data [] [] _ eq_refl eq_refl scattered_page_pass)
    as (meta & ni & nv & Hmeta & _ & _ & Hni & Hnv & Htype & _).
  by exists meta, ni, nv.
Defined.

(** On the page with two image tags the record appended by the Open
    Graph pass has the type [og:image], not the name of the source. *)
Lemma meta_pass_type_is_image_key :
  ∃ image,
    _filter_meta_data (one_page "" [])
      [OStr "open_graph"; OSoup scattered_page; ODict empty_data]
      ≫= (fun data' => getitem data' "images") =
      Return (VList [VDict image])
    ∧ image !! "type" = Some (VStr "og:image")
    ∧ image !! "type" ≠ Some (VStr "open_graph").
Proof.
  eexists. rewrite scattered_page_pass. split; [reflexivity|].
  split; [reflexivity|]. discriminate.
Qed.

(** * Further properties of the code *)

(** ** [merge_settings] and the settings of [fetch] *)

(** X1.  [merge_settings] returns its first argument that is not [None]:
    a first argument that is not [None] is the result whatever the
    second is, [None] is neutral on both sides, the operation is
    associative, and its result is [None] only when both arguments
    are. *)
Theorem merge_settings_first_not_None (a b c : value) :
  (is_None a = false → merge_settings a b = a)
  ∧ merge_settings VNone a = a
  ∧ merge_settings a VNone = a
  ∧ merge_settings (merge_settings a b) c
    = merge_settings a (merge_settings b c)
  ∧ (merge_settings a b = VNone ↔ a = VNone ∧ b = VNone).
Proof.
  unfold merge_settings. split; [|split; [|split; [|split; [|split]]]].
  - intros ->. by destruct (is_None b).
  - reflexivity.
  - by destruct a.
  - destruct a, b; simpl; by destruct (is_None c).
  - by destruct a, b.
  - by intros [-> ->].
Qed.

Lemma merge_settings_first_not_None_witness :
  merge_settings (VBool false) (VBool true) = VBool false.
Proof.
  exact (proj1 (merge_settings_first_not_None (VBool false) (VBool true)
                  VNone) eq_refl).
Defined.

(** X2.  A flag the caller passes to [fetch] is the one the call uses,
    unless it is [None], in which case the call uses the attribute of the
    instance. *)
Theorem fetch_settings_supplied (self : Lassie) (v : value)
    (og tw ti fv ai ps : option value) :
  let used := fun x : value => if is_None v then x else v in
  open_graph (fetch_settings self
    {| kw_open_graph := Some v; kw_twitter_card := tw; kw_touch_icon := ti;
       kw_favicon := fv; kw_all_images := ai; kw_parser := ps |})
    = used (open_graph self)
  ∧ twitter_card (fetch_settings self
    {| kw_open_graph := og; kw_twitter_card := Some v; kw_touch_icon := ti;
       kw_favicon := fv; kw_all_images := ai; kw_parser := ps |})
    = used (twitter_card self)
  ∧ touch_icon (fetch_settings self
    {| kw_open_graph := og; kw_twitter_card := tw; kw_touch_icon := Some v;
       kw_favicon := fv; kw_all_images := ai; kw_parser := ps |})
    = used (touch_icon self)
  ∧ favicon (fetch_settings self
    {| kw_open_graph := og; kw_twitter_card := tw; kw_touch_icon := ti;
       kw_favicon := Some v; kw_all_images := ai; kw_parser := ps |})
    = used (favicon self)
  ∧ all_images (fetch_settings self
    {| kw_open_graph := og; kw_twitter_card := tw; kw_touch_icon := ti;
       kw_favicon := fv; kw_all_images := Some v; kw_parser := ps |})
    = used (all_images self).
Proof.
  unfold fetch_settings, fetch_params, merge_settings. cbn.
  repeat split; destruct (is_None v); try reflexivity;
    match goal with |- context [is_None ?x] => by destruct (is_None x) end.
Qed.

(** X3.  The parser a call of [fetch] uses is the one the caller passes
    when that is true, and the one of the instance otherwise (also for an
    empty string): the outer [merge_settings] of line 81 changes
    nothing. *)
Theorem fetch_parser_setting (self : Lassie) (kw : fetch_kwargs) :
  parser (fetch_settings self kw)
  = py_or (default VNone (kw_parser kw)) (parser self).
Proof.
  unfold fetch_settings, fetch_params, merge_settings, py_or. cbn.
  destruct (truthy (default VNone (kw_parser kw))) eqn:Ht.
  - destruct (default VNone (kw_parser kw)); try discriminate;
      cbn; by destruct (is_None (parser self)).
  - by destruct (is_None (parser self)).
Qed.

(** ** [fetch] *)

(** X4.  No call of [fetch] returns.  When the request raises, [fetch]
    raises the [LassieError] built from its exception; when the text of
    the response is empty, it raises the [LassieError] of line 85; in
    every other case it raises the [TypeError] of the call of
    [_filter_meta_data] with four arguments made by the first meta pass
    that the settings enable, on the tree the parser gave. *)
Theorem fetch_always_raises E self url kw :
  fetch E self url kw =
    match requests_get E url with
    | inr e => Raise (LassieError (Caught e))
    | inl html =>
        if String.eqb html ""
        then Raise (LassieError (Message "There was no content to parse."))
        else Raise (TypeError_arity "_filter_meta_data"
                      ["source"; "soup"; "data"]
                      [OStr (first_meta_source (fetch_settings self kw));
                       OSoup (BeautifulSoup E (clean_text E html)
                                (parser (fetch_settings self kw)));
                       ODict empty_data;
                       OStr url])
    end
  ∧ ∀ data, fetch E self url kw ≠ Return data.
Proof.
  assert (Hraise :
    fetch E self url kw =
      match requests_get E url with
      | inr e => Raise (LassieError (Caught e))
      | inl html =>
          if String.eqb html ""
          then Raise (LassieError (Message "There was no content to parse."))
          else Raise (TypeError_arity "_filter_meta_data"
                        ["source"; "soup"; "data"]
                        [OStr (first_meta_source (fetch_settings self kw));
                         OSoup (BeautifulSoup E (clean_text E html)
                                  (parser (fetch_settings self kw)));
                         ODict empty_data;
                         OStr url])
      end).
  { destruct (requests_get E url) as [html|err] eqn:Hget.
    - destruct (String.eqb_spec html "") as [->|Hne].
      + unfold fetch, _retreive_content. by rewrite Hget.
      + by apply fetch_raises.
    - unfold fetch, _retreive_content. by rewrite Hget. }
  split; [exact Hraise|]. intros data. rewrite Hraise.
  destruct (requests_get E url) as [html|err]; [|discriminate].
  by destruct (String.eqb html "").
Qed.

(** ** The loop body of [_filter_meta_data] *)

Lemma contains_None {A} (d : gmap string A) k :
  d !! k = None → contains d k = false.
Proof.
  intros H. unfold contains. apply bool_decide_eq_false. rewrite H.
  by intros [? ?].
Qed.

Lemma coerce_value_plain E meta prop (v : value) :
  endswith prop "width" = false → endswith prop "height" = false →
  prop ≠ "keywords" →
  coerce_value E meta prop v = Return v.
Proof.
  intros Hw Hh Hk. unfold coerce_value. rewrite Hw, Hh, andb_false_r.
  by destruct (String.eqb_spec prop "keywords").
Qed.

Lemma coerce_value_keywords E meta (v : value) :
  coerce_value E meta "keywords" v = value_split v ",".
Proof.
  unfold coerce_value.
  change (endswith "keywords" "width") with false.
  change (endswith "keywords" "height") with false.
  by rewrite andb_false_r.
Qed.

Lemma coerce_value_dimension E meta prop (v : value) :
  (startswith prop (mf_image_key meta) || startswith prop (mf_video_key meta))
    = true →
  (endswith prop "width" || endswith prop "height") = true →
  coerce_value E meta prop v = Return (convert_to_int E v).
Proof.
  intros Hs He. unfold coerce_value. rewrite Hs, He. cbn [andb].
  destruct (String.eqb_spec prop "keywords") as [->|]; [|done].
  discriminate He.
Qed.

(** The guard of line 152 lets the element through. *)
Lemma meta_body_guarded E f meta st line prop field :
  tag_attrs line !! mf_key meta = Some (VStr prop) →
  mf_map meta !! prop = Some field →
  l_data st !! field = None →
  meta_body E f meta st line =
    (val ← coerce_value E meta prop (tag_get line "content" VNone);
     if truthy (VStr (mf_image_key meta))
        && startswith prop (mf_image_key meta) && truthy val
     then
       absolute ← value_startswith val (py_or (VStr "http") (VStr "www"));
       src ← (if absolute : bool then Return val
              else url ← load f "url" ≫= as_str; urljoin E url val);
       Return {| l_data := l_data st;
                 l_image := <[field := src]> (l_image st);
                 l_video := l_video st;
                 l_image_prop := Some (mf_image_key meta);
                 l_video_prop := Some (mf_video_key meta) |}
     else if truthy (VStr (mf_video_key meta))
             && startswith prop (mf_video_key meta) && truthy val
     then
       Return {| l_data := l_data st;
                 l_image := l_image st;
                 l_video := <[field := val]> (l_video st);
                 l_image_prop := Some (mf_image_key meta);
                 l_video_prop := Some (mf_video_key meta) |}
     else
       Return {| l_data := <[field := val]> (l_data st);
                 l_image := l_image st;
                 l_video := l_video st;
                 l_image_prop := Some (mf_image_key meta);
                 l_video_prop := Some (mf_video_key meta) |}).
Proof.
  intros Hprop Hmap Hfield. unfold meta_body. cbv zeta.
  unfold tag_get at 1. rewrite Hprop. cbn [default from_option id].
  rewrite Hmap.
  by rewrite (contains_None _ _ Hfield).
Qed.

(** X5.  An image property whose content does not begin with [http]
    (a relative address, or one that begins with [www]) makes the pass
    raise [NameError]: the join reads the name [url], which no parameter
    of [_filter_meta_data] binds. *)
Theorem meta_body_relative_image E args f meta st line prop field s :
  bind_args "_filter_meta_data" _filter_meta_data_params args = Return f →
  tag_attrs line !! mf_key meta = Some (VStr prop) →
  tag_attrs line !! "content" = Some (VStr s) →
  mf_map meta !! prop = Some field →
  l_data st !! field = None →
  mf_image_key meta ≠ "" →
  startswith prop (mf_image_key meta) = true →
  endswith prop "width" = false → endswith prop "height" = false →
  prop ≠ "keywords" →
  s ≠ "" → startswith s "http" = false →
  meta_body E f meta st line = Raise (NameError "url").
Proof.
  intros Hf Hprop Hcontent Hmap Hfield Hkey Hstart Hw Hh Hk Hs Hhttp.
  rewrite (meta_body_guarded _ _ _ _ _ _ _ Hprop Hmap Hfield).
  rewrite (coerce_value_plain _ _ _ _ Hw Hh Hk). cbn [mbind result_bind].
  unfold tag_get. rewrite Hcontent. cbn [default from_option id].
  rewrite (truthy_VStr_nonempty _ Hkey), Hstart, (truthy_VStr_nonempty _ Hs).
  cbn [andb]. change (py_or (VStr "http") (VStr "www")) with (VStr "http").
  cbn [value_startswith mbind result_bind]. rewrite Hhttp.
  by rewrite (filter_meta_data_url_unbound _ _ Hf).
Qed.

Lemma meta_body_relative_image_witness :
  meta_body (one_page "" [])
    (meta_frame "open_graph" [] empty_data) spec_open_graph
    (start_locals empty_data)
    (meta_tag "property" "og:image" "www.site.test/a.png")
  = Raise (NameError "url").
Proof.
  refine (meta_body_relative_image (one_page "" [])
            [OStr "open_graph"; OSoup []; ODict empty_data] _
            spec_open_graph (start_locals empty_data)
            (meta_tag "property" "og:image" "www.site.test/a.png")
            "og:image" "src" "www.site.test/a.png"
            eq_refl eq_refl eq_refl eq_refl eq_refl _ eq_refl eq_refl eq_refl
            _ _ eq_refl); discriminate.
Defined.

(** X6.  A width or height of an image that converts to an integer
    other than zero makes the pass raise [AttributeError]: the image
    branch calls [startswith] on the integer. *)
Theorem meta_body_image_dimension E f meta st line prop field z :
  tag_attrs line !! mf_key meta = Some (VStr prop) →
  mf_map meta !! prop = Some field →
  l_data st !! field = None →
  mf_image_key meta ≠ "" →
  startswith prop (mf_image_key meta) = true →
  (endswith prop "width" || endswith prop "height") = true →
  convert_to_int E (tag_get line "content" VNone) = VInt z →
  z ≠ 0%Z →
  meta_body E f meta st line = Raise (AttributeError "int" "startswith").
Proof.
  intros Hprop Hmap Hfield Hkey Hstart Hend Hint Hz.
  rewrite (meta_body_guarded _ _ _ _ _ _ _ Hprop Hmap Hfield).
  rewrite coerce_value_dimension; [|by rewrite Hstart|done].
  rewrite Hint. cbn [mbind result_bind].
  rewrite (truthy_VStr_nonempty _ Hkey), Hstart. cbn [andb truthy].
  by destruct (Z.eqb_spec z 0).
Qed.

Lemma meta_body_image_dimension_witness :
  meta_body (one_page "" [])
    (meta_frame "open_graph" [] empty_data) spec_open_graph
    (start_locals empty_data)
    (meta_tag "property" "og:image:width" "100")
  = Raise (AttributeError "int" "startswith").
Proof.
  refine (meta_body_image_dimension (one_page "" []) _ spec_open_graph
            (start_locals empty_data)
            (meta_tag "property" "og:image:width" "100")
            "og:image:width" "width" 100
            eq_refl eq_refl eq_refl _ eq_refl eq_refl eq_refl _);
    discriminate.
Defined.

(** X7.  A matched element whose value is false after the coercions (a
    missing or empty content, a dimension that does not convert) is
    written to the top level of the result under its mapped name, also
    when its property is an image or a video property. *)
Theorem meta_body_false_value E f meta st line prop field v :
  tag_attrs line !! mf_key meta = Some (VStr prop) →
  mf_map meta !! prop = Some field →
  l_data st !! field = None →
  coerce_value E meta prop (tag_get line "content" VNone) = Return v →
  truthy v = false →
  meta_body E f meta st line =
    Return {| l_data := <[field := v]> (l_data st);
              l_image := l_image st;
              l_video := l_video st;
              l_image_prop := Some (mf_image_key meta);
              l_video_prop := Some (mf_video_key meta) |}.
Proof.
  intros Hprop Hmap Hfield Hval Hfalse.
  rewrite (meta_body_guarded _ _ _ _ _ _ _ Hprop Hmap Hfield).
  rewrite Hval. cbn [mbind result_bind]. by rewrite Hfalse, !andb_false_r.
Qed.

Lemma meta_body_false_value_witness :
  meta_body (one_page "" [])
    (meta_frame "open_graph" [] empty_data) spec_open_graph
    (start_locals empty_data)
    (meta_tag "property" "og:image:width" "abc")
  = Return {| l_data := <["width" := VNone]> empty_data;
              l_image := ∅;
              l_video := ∅;
              l_image_prop := Some "og:image";
              l_video_prop := Some "og:video" |}.
Proof.
  exact (meta_body_false_value (one_page "" []) _ spec_open_graph
           (start_locals empty_data)
           (meta_tag "property" "og:image:width" "abc")
           "og:image:width" "width" VNone
           eq_refl eq_refl eq_refl eq_refl eq_refl).
Defined.

(** X8.  A keywords element without content makes the pass raise
    [AttributeError]: [split] is called on [None]. *)
Theorem meta_body_keywords_without_content E f meta st line field :
  tag_attrs line !! mf_key meta = Some (VStr "keywords") →
  tag_attrs line !! "content" = None →
  mf_map meta !! "keywords" = Some field →
  l_data st !! field = None →
  meta_body E f meta st line = Raise (AttributeError "NoneType" "split").
Proof.
  intros Hprop Hcontent Hmap Hfield.
  rewrite (meta_body_guarded _ _ _ _ _ _ _ Hprop Hmap Hfield).
  rewrite coerce_value_keywords. unfold tag_get. by rewrite Hcontent.
Qed.

Lemma meta_body_keywords_without_content_witness :
  meta_body (one_page "" [])
    (meta_frame "generic" [] empty_data) spec_generic
    (start_locals empty_data) bare_keywords_tag
  = Raise (AttributeError "NoneType" "split").
Proof.
  exact (meta_body_keywords_without_content (one_page "" []) _ spec_generic
           (start_locals empty_data) bare_keywords_tag "keywords"
           eq_refl eq_refl eq_refl eq_refl).
Defined.

(** ** [split] *)

Lemma split_not_nil sep s : split sep s ≠ [].
Proof.
  destruct s as [|c s]; simpl; [done|].
  destruct (Ascii.eqb c sep); [done|]. by destruct (split sep s).
Qed.

(** Joining the pieces with the separator gives the string back. *)
Lemma concat_split sep s :
  String.concat (String sep "") (split sep s) = s.
Proof.
  induction s as [|c s IH]; [done|]. simpl.
  pose proof (split_not_nil sep s) as Hne.
  destruct (Ascii.eqb_spec c sep) as [->|Hc].
  - destruct (split sep s) as [|w ws]; [done|].
    change (String.concat (String sep "") ("" :: w :: ws))
      with (String sep (String.concat (String sep "") (w :: ws))).
    by rewrite IH.
  - destruct (split sep s) as [|w ws]; [done|].
    destruct ws as [|w' ws].
    + simpl in *. by rewrite IH.
    + change (String.concat (String sep "") (String c w :: w' :: ws))
        with (String c (w ++ String sep "" ++
                        String.concat (String sep "") (w' :: ws)))%string.
      by rewrite <- IH.
Qed.

(** X9.  A keywords element with content, in a source where keywords is
    neither an image nor a video property, is written to the result as
    the list of the pieces between the commas of its content; joining the
    pieces with commas gives the content back. *)
Theorem meta_body_splits_keywords E f meta st line field s :
  tag_attrs line !! mf_key meta = Some (VStr "keywords") →
  tag_attrs line !! "content" = Some (VStr s) →
  mf_map meta !! "keywords" = Some field →
  l_data st !! field = None →
  truthy (VStr (mf_image_key meta))
    && startswith "keywords" (mf_image_key meta) = false →
  truthy (VStr (mf_video_key meta))
    && startswith "keywords" (mf_video_key meta) = false →
  meta_body E f meta st line =
    Return {| l_data := <[field := VList (VStr <$> split "," s)]> (l_data st);
              l_image := l_image st;
              l_video := l_video st;
              l_image_prop := Some (mf_image_key meta);
              l_video_prop := Some (mf_video_key meta) |}
  ∧ String.concat "," (split "," s) = s.
Proof.
  intros Hprop Hcontent Hmap Hfield Himage Hvideo.
  split; [|apply concat_split].
  rewrite (meta_body_guarded _ _ _ _ _ _ _ Hprop Hmap Hfield).
  rewrite coerce_value_keywords. unfold tag_get. rewrite Hcontent.
  cbn [default from_option id value_split mbind result_bind]. by rewrite Himage, Hvideo.
Qed.

Lemma meta_body_splits_keywords_witness :
  meta_body (one_page "" [])
    (meta_frame "generic" [] empty_data) spec_generic
    (start_locals empty_data) (meta_tag "name" "keywords" "a,b,,c")
  = Return {| l_data := <["keywords" :=
                           VList [VStr "a"; VStr "b"; VStr ""; VStr "c"]]>
                          empty_data;
              l_image := ∅;
              l_video := ∅;
              l_image_prop := Some "";
              l_video_prop := Some "" |}.
Proof.
  exact (proj1 (meta_body_splits_keywords (one_page "" []) _ spec_generic
                  (start_locals empty_data)
                  (meta_tag "name" "keywords" "a,b,,c") "keywords" "a,b,,c"
                  eq_refl eq_refl eq_refl eq_refl eq_refl eq_refl)).
Defined.

(** ** The meta passes, as a whole *)

(** What an iteration that returns has done: nothing, or one write, to
    the image, to the video or to the result. *)
Lemma meta_body_Return E f meta st line st' :
  meta_body E f meta st line = Return st' →
  st' = st
  ∨ ∃ prop field val,
      tag_attrs line !! mf_key meta = Some (VStr prop)
      ∧ mf_map meta !! prop = Some field
      ∧ l_data st !! field = None
      ∧ coerce_value E meta prop (tag_get line "content" VNone) = Return val
      ∧ ((∃ absolute src,
            truthy val = true
            ∧ value_startswith val (VStr "http") = Return absolute
            ∧ (if absolute : bool then Return val
               else url ← load f "url" ≫= as_str; urljoin E url val)
              = Return src
            ∧ l_data st' = l_data st
            ∧ l_image st' = <[field := src]> (l_image st)
            ∧ l_video st' = l_video st)
         ∨ (truthy val = true
            ∧ startswith prop (mf_video_key meta) = true
            ∧ l_data st' = l_data st
            ∧ l_image st' = l_image st
            ∧ l_video st' = <[field := val]> (l_video st))
         ∨ (l_data st' = <[field := val]> (l_data st)
            ∧ l_image st' = l_image st
            ∧ l_video st' = l_video st)).
Proof.
  unfold meta_body. cbv zeta.
  destruct (tag_get line (mf_key meta) VNone) as [| | |prop| |] eqn:Hprop;
    try (intros [= <-]; by left); try discriminate.
  apply tag_get_VStr in Hprop.
  destruct (mf_map meta !! prop) as [field|] eqn:Hmap;
    [|intros [= <-]; by left].
  destruct (contains (l_data st) field) eqn:Hin; [intros [= <-]; by left|].
  apply contains_false in Hin.
  destruct (coerce_value E meta prop (tag_get line "content" VNone))
    as [val|e] eqn:Hval; [|discriminate].
  cbn [mbind result_bind]. intros Hrun. right. exists prop, field, val.
  do 4 (split; [done|]).
  destruct (truthy (VStr (mf_image_key meta))
            && startswith prop (mf_image_key meta) && truthy val) eqn:Himg.
  { left. apply andb_prop in Himg as [_ Htrue].
    apply bind_Return in Hrun as (absolute & Habs & Hrun).
    apply bind_Return in Hrun as (src & Hsrc & [= <-]).
    by exists absolute, src. }
  destruct (truthy (VStr (mf_video_key meta))
            && startswith prop (mf_video_key meta) && truthy val) eqn:Hvid.
  { right; left. apply andb_prop in Hvid as [[_ Hs]%andb_prop Htrue].
    by injection Hrun as <-. }
  right; right. by injection Hrun as <-.
Qed.

(** X10.  A meta pass called with its three declared arguments never
    changes a field the result already holds: whatever the document
    says, the value found before the pass is the value after it. *)
Theorem meta_pass_never_overwrites E source soup
    (data data' : gmap string value) k v :
  _filter_meta_data E [OStr source; OSoup soup; ODict data] = Return data' →
  data !! k = Some v →
  k ≠ "images" → k ≠ "videos" →
  data' !! k = Some v.
Proof. apply meta_pass_keeps_fields. Qed.

Lemma generic_pass_after_og :
  _filter_meta_data (one_page "" [])
    [OStr "generic"; OSoup three_sources_page;
     ODict (<["title" := VStr "from og"]> empty_data)] =
  Return (<["keywords" := VList [VStr "a"; VStr "b"]]>
            (<["title" := VStr "from og"]> empty_data)).
Proof. vm_compute. reflexivity. Qed.

Lemma meta_pass_never_overwrites_witness :
  (<["keywords" := VList [VStr "a"; VStr "b"]]>
     (<["title" := VStr "from og"]> empty_data) : gmap string value)
    !! "title" = Some (VStr "from og").
Proof.
  refine (meta_pass_never_overwrites (one_page "" []) "generic"
            three_sources_page _ _ "title" (VStr "from og")
            generic_pass_after_og eq_refl _ _); discriminate.
Defined.

(** X11.  When the three meta passes run in the order of [fetch], each
    with its three declared arguments, a field that the Open Graph pass
    or the Twitter Card pass leaves in the result has the same value
    after the generic pass. *)
Theorem meta_passes_priority E soup (d0 d1 d2 d3 : gmap string value) k v :
  _filter_meta_data E [OStr "open_graph"; OSoup soup; ODict d0] = Return d1 →
  _filter_meta_data E [OStr "twitter_card"; OSoup soup; ODict d1]
    = Return d2 →
  _filter_meta_data E [OStr "generic"; OSoup soup; ODict d2] = Return d3 →
  k ≠ "images" → k ≠ "videos" →
  (d1 !! k = Some v → d3 !! k = Some v)
  ∧ (d2 !! k = Some v → d3 !! k = Some v).
Proof.
  intros H1 H2 H3 Hi Hv. split.
  - intros Hk. eapply meta_pass_keeps_fields; [exact H3| |done|done].
    eapply meta_pass_keeps_fields; [exact H2|exact Hk|done|done].
  - intros Hk. eapply meta_pass_keeps_fields; [exact H3|exact Hk|done|done].
Qed.

Lemma three_sources_open_graph :
  _filter_meta_data (one_page "" [])
    [OStr "open_graph"; OSoup three_sources_page; ODict empty_data] =
  Return (<["description" := VStr "about"]>
            (<["title" := VStr "from og"]> empty_data)).
Proof. vm_compute. reflexivity. Qed.

Lemma three_sources_twitter_card :
  _filter_meta_data (one_page "" [])
    [OStr "twitter_card"; OSoup three_sources_page;
     ODict (<["description" := VStr "about"]>
              (<["title" := VStr "from og"]> empty_data))] =
  Return (<["description" := VStr "about"]>
            (<["title" := VStr "from og"]> empty_data)).
Proof. vm_compute. reflexivity. Qed.

Lemma three_sources_generic :
  _filter_meta_data (one_page "" [])
    [OStr "generic"; OSoup three_sources_page;
     ODict (<["description" := VStr "about"]>
              (<["title" := VStr "from og"]> empty_data))] =
  Return (<["keywords" := VList [VStr "a"; VStr "b"]]>
            (<["description" := VStr "about"]>
               (<["title" := VStr "from og"]> empty_data))).
Proof. vm_compute. reflexivity. Qed.

Lemma meta_passes_priority_witness :
  (<["keywords" := VList [VStr "a"; VStr "b"]]>
     (<["description" := VStr "about"]>
        (<["title" := VStr "from og"]> empty_data)) : gmap string value)
    !! "title" = Some (VStr "from og").
Proof.
  refine (proj1 (meta_passes_priority (one_page "" []) three_sources_page
                   _ _ _ _ "title" (VStr "from og")
                   three_sources_open_graph three_sources_twitter_card
                   three_sources_generic _ _) eq_refl); discriminate.
Defined.

Section MetaPassEntries.

Variable E : Env.
Variables (source : string) (soup : Soup) (data : gmap string value).
Variable meta : meta_filter.

Let html := find_all soup "meta" (mf_key meta) (mf_pattern meta).
Let f := meta_frame source soup data.

Lemma meta_frame_url_unbound : load f "url" = Raise (NameError "url").
Proof. reflexivity. Qed.

(** The three facts the loop keeps about what it has written. *)
Lemma meta_loop_entries st' :
  for_each (meta_body E f meta) html (start_locals data) = Return st' →
  (∀ k v, l_data st' !! k = Some v →
          data !! k = Some v ∨ data_entry E meta html k v)
  ∧ (∀ k v, l_image st' !! k = Some v → http_string v)
  ∧ (∀ k v, l_video st' !! k = Some v → truthy v = true).
Proof.
  apply (for_each_invariant
           (fun st =>
              (∀ k v, l_data st !! k = Some v →
                      data !! k = Some v ∨ data_entry E meta html k v)
              ∧ (∀ k v, l_image st !! k = Some v → http_string v)
              ∧ (∀ k v, l_video st !! k = Some v → truthy v = true))).
  - intros st line st1 Hline (Hd & Hi & Hv) Hrun.
    apply meta_body_Return in Hrun
      as [->|(prop & field & val & Hprop & Hmap & Hfield & Hval & Hcase)];
      [done|].
    destruct Hcase
      as [(absolute & src & Htrue & Habs & Hsrc & -> & -> & ->)
         |[(Htrue & Hs & -> & -> & ->)|(-> & -> & ->)]].
    + split; [done|]. split; [|done]. intros k v.
      destruct (decide (field = k)) as [<-|Hne];
        [|rewrite lookup_insert_ne by done; apply Hi].
      rewrite lookup_insert_eq. intros [= <-].
      destruct val as [| | |s| |]; try discriminate Habs.
      injection Habs as <-.
      destruct (startswith s "http") eqn:Hhttp.
      * injection Hsrc as <-. by exists s.
      * by rewrite meta_frame_url_unbound in Hsrc.
    + split; [done|]. split; [done|]. intros k v.
      destruct (decide (field = k)) as [<-|Hne];
        [|rewrite lookup_insert_ne by done; apply Hv].
      rewrite lookup_insert_eq. by intros [= <-].
    + split; [|done]. intros k v.
      destruct (decide (field = k)) as [<-|Hne];
        [|rewrite lookup_insert_ne by done; apply Hd].
      rewrite lookup_insert_eq. intros [= <-]. right.
      by exists line, prop.
  - split; [by left|]. split; intros k v; simpl; by rewrite lookup_empty.
Qed.

End MetaPassEntries.

(** X12.  A meta pass adds to the top level of the result only fields
    of its map: every field the result holds after the pass and did not
    hold before comes from a matched element whose property the map
    sends to that field, with the coerced content of the element as its
    value. *)
Theorem meta_pass_adds_mapped_fields E source soup
    (data data' : gmap string value) k v :
  _filter_meta_data E [OStr source; OSoup soup; ODict data] = Return data' →
  data' !! k = Some v →
  data !! k = None →
  k ≠ "images" → k ≠ "videos" →
  ∃ meta,
    FILTER_MAPS_meta E !! source = Some meta
    ∧ data_entry E meta
        (find_all soup "meta" (mf_key meta) (mf_pattern meta)) k v.
Proof.
  intros (meta & st & Hmeta & Hloop & Hfinish)%filter_meta_data_run
    Hk Hnew Hi Hv.
  exists meta. split; [done|].
  rewrite (meta_finish_other _ _ _ Hfinish Hi Hv) in Hk.
  destruct (meta_loop_entries E source soup data meta st Hloop) as (Hd & _).
  destruct (Hd k v Hk) as [Hold|Hentry]; [congruence|done].
Qed.

Lemma meta_pass_adds_mapped_fields_witness :
  ∃ meta,
    FILTER_MAPS_meta (one_page "" []) !! "generic" = Some meta
    ∧ data_entry (one_page "" []) meta
        (find_all three_sources_page "meta" (mf_key meta) (mf_pattern meta))
        "keywords" (VList [VStr "a"; VStr "b"]).
Proof.
  refine (meta_pass_adds_mapped_fields (one_page "" []) "generic"
            three_sources_page _ _ "keywords" (VList [VStr "a"; VStr "b"])
            generic_pass_after_og eq_refl eq_refl _ _); discriminate.
Defined.

(** The records a pass that returns has appended. *)
Lemma meta_pass_appended E source soup (data data' : gmap string value)
    imgs vids :
  data !! "images" = Some (VList imgs) →
  data !! "videos" = Some (VList vids) →
  _filter_meta_data E [OStr source; OSoup soup; ODict data] = Return data' →
  ∃ meta st,
    for_each (meta_body E (meta_frame source soup data) meta)
      (find_all soup "meta" (mf_key meta) (mf_pattern meta))
      (start_locals data) = Return st
    ∧ data' !! "images" =
        Some (VList (imgs ++
          (if truthy (VDict (l_image st))
           then [VDict (<["type" := VStr (mf_image_key meta)]> (l_image st))]
           else [])))
    ∧ data' !! "videos" =
        Some (VList (vids ++
          (if truthy (VDict (l_video st)) then [VDict (l_video st)] else []))).
Proof.
  intros Himgs Hvids (meta & st & Hmeta & Hloop & Hfinish)%filter_meta_data_run.
  apply meta_loop_invariant in Hloop as Hinv.
  destruct (meta_finish_appends _ _ _ _ _ _ _ _ Hinv Himgs Hvids Hfinish)
    as (ni & nv & -> & -> & ->).
  exists meta, st. split; [done|]. split.
  - by rewrite lookup_insert_ne, lookup_insert_eq.
  - by rewrite lookup_insert_eq.
Qed.

(** X13.  In the Image Record of a meta pass that returns, every entry
    besides [type] is a string that begins with [http]: the record never
    holds a relative address, nor a width or a height as an integer. *)
Theorem meta_pass_image_entries E source soup
    (data data' : gmap string value) imgs vids new_images :
  data !! "images" = Some (VList imgs) →
  data !! "videos" = Some (VList vids) →
  _filter_meta_data E [OStr source; OSoup soup; ODict data] = Return data' →
  data' !! "images" = Some (VList (imgs ++ new_images)) →
  ∀ image k v,
    VDict image ∈ new_images → image !! k = Some v → k ≠ "type" →
    http_string v.
Proof.
  intros Himgs Hvids Hrun Hnew image k v Hin Hk Htype.
  destruct (meta_pass_appended _ _ _ _ _ _ _ Himgs Hvids Hrun)
    as (meta & st & Hloop & Hi & _).
  assert (new_images =
            if truthy (VDict (l_image st))
            then [VDict (<["type" := VStr (mf_image_key meta)]> (l_image st))]
            else []) as ->.
  { apply (app_inv_head imgs). congruence. }
  destruct (truthy (VDict (l_image st))); [|by apply elem_of_nil in Hin].
  apply list_elem_of_singleton in Hin. injection Hin as ->.
  rewrite lookup_insert_ne in Hk by done.
  destruct (meta_loop_entries E source soup data meta st Hloop)
    as (_ & Himage & _).
  by apply (Himage k v).
Qed.

Lemma meta_pass_image_entries_witness :
  http_string (VStr "http://cdn.test/b.png").
Proof.
  refine (meta_pass_image_entries (one_page "" []) "open_graph"
            scattered_page empty_data _ [] []
            [VDict (<["type" := VStr "og:image"]>
                      {["src" := VStr "http://cdn.test/b.png"]})]
            eq_refl eq_refl scattered_page_pass eq_refl
            (<["type" := VStr "og:image"]>
               {["src" := VStr "http://cdn.test/b.png"]})
            "src" _ _ eq_refl _).
  - apply list_elem_of_singleton. reflexivity.
  - discriminate.
Defined.

(** X14.  In the Video Record of a meta pass that returns, every value
    is true: the record holds no [None], no empty string and no zero. *)
Theorem meta_pass_video_entries E source soup
    (data data' : gmap string value) imgs vids new_videos :
  data !! "images" = Some (VList imgs) →
  data !! "videos" = Some (VList vids) →
  _filter_meta_data E [OStr source; OSoup soup; ODict data] = Return data' →
  data' !! "videos" = Some (VList (vids ++ new_videos)) →
  ∀ video k v,
    VDict video ∈ new_videos → video !! k = Some v → truthy v = true.
Proof.
  intros Himgs Hvids Hrun Hnew video k v Hin Hk.
  destruct (meta_pass_appended _ _ _ _ _ _ _ Himgs Hvids Hrun)
    as (meta & st & Hloop & _ & Hv).
  assert (new_videos =
            if truthy (VDict (l_video st)) then [VDict (l_video st)] else [])
    as ->.
  { apply (app_inv_head vids). congruence. }
  destruct (truthy (VDict (l_video st))); [|by apply elem_of_nil in Hin].
  apply list_elem_of_singleton in Hin. injection Hin as ->.
  destruct (meta_loop_entries E source soup data meta st Hloop)
    as (_ & _ & Hvideo).
  by apply (Hvideo k v).
Qed.

Lemma meta_pass_video_entries_witness : truthy (VInt 640) = true.
Proof.
  refine (meta_pass_video_entries (one_page "" []) "open_graph"
            scattered_page empty_data _ [] []
            [VDict (<["src" := VStr "movie.mp4"]>
                      (<["width" := VInt 640]>
                         {["type" := VStr "video/mp4"]}))]
            eq_refl eq_refl scattered_page_pass eq_refl
            (<["src" := VStr "movie.mp4"]>
               (<["width" := VInt 640]> {["type" := VStr "video/mp4"]}))
            "width" _ _ eq_refl).
  apply list_elem_of_singleton. reflexivity.
Defined.

(** ** Edge cases of the passes *)

(** X15.  A pass over a document in which no element matches the key
    and pattern of the source returns the result unchanged, for the meta
    passes and for the link passes alike. *)
Theorem passes_without_match E source soup (data : gmap string value) url :
  (∀ meta, FILTER_MAPS_meta E !! source = Some meta →
           find_all soup "meta" (mf_key meta) (mf_pattern meta) = [] →
           _filter_meta_data E [OStr source; OSoup soup; ODict data]
           = Return data)
  ∧ (∀ link, FILTER_MAPS_link E !! source = Some link →
             find_all soup "link" (lf_key link) (lf_pattern link) = [] →
             _filter_link_tag_data E
               [OStr source; OSoup soup; ODict data; OStr url]
             = Return data).
Proof.
  split.
  - intros meta Hmeta Hnone. unfold _filter_meta_data. cbn.
    unfold getitem. rewrite Hmeta. cbn [mbind result_bind]. by rewrite Hnone.
  - intros link Hlink Hnone. unfold _filter_link_tag_data. cbn.
    unfold getitem. rewrite Hlink. cbn [mbind result_bind]. by rewrite Hnone.
Qed.

Lemma passes_without_match_witness :
  _filter_meta_data (one_page "" [])
    [OStr "twitter_card"; OSoup og_page; ODict empty_data] = Return empty_data
  ∧ _filter_link_tag_data (one_page "" [])
      [OStr "touch_icon"; OSoup favicon_page; ODict empty_data;
       OStr "https://site.test/p"] = Return empty_data.
Proof.
  split.
  - exact (proj1 (passes_without_match (one_page "" []) "twitter_card"
                    og_page empty_data "")
             spec_twitter_card eq_refl eq_refl).
  - exact (proj2 (passes_without_match (one_page "" []) "touch_icon"
                    favicon_page empty_data "https://site.test/p")
             spec_touch_icon eq_refl eq_refl).
Defined.

(** X16.  A pass called with a source that its table of [FILTER_MAPS]
    does not list raises [KeyError] with that source, whatever the
    document. *)
Theorem passes_unknown_source E source soup (data : gmap string value) url :
  (FILTER_MAPS_meta E !! source = None →
   _filter_meta_data E [OStr source; OSoup soup; ODict data]
   = Raise (KeyError source))
  ∧ (FILTER_MAPS_link E !! source = None →
     _filter_link_tag_data E [OStr source; OSoup soup; ODict data; OStr url]
     = Raise (KeyError source)).
Proof.
  split; intros Hnone.
  - unfold _filter_meta_data. cbn. unfold getitem. by rewrite Hnone.
  - unfold _filter_link_tag_data. cbn. unfold getitem. by rewrite Hnone.
Qed.

Lemma passes_unknown_source_witness :
  _filter_meta_data (one_page "" [])
    [OStr "favicon"; OSoup favicon_page; ODict empty_data]
  = Raise (KeyError "favicon")
  ∧ _filter_link_tag_data (one_page "" [])
      [OStr "generic"; OSoup og_page; ODict empty_data;
       OStr "https://site.test/p"]
    = Raise (KeyError "generic").
Proof.
  split.
  - exact (proj1 (passes_unknown_source (one_page "" []) "favicon"
                    favicon_page empty_data "") eq_refl).
  - exact (proj2 (passes_unknown_source (one_page "" []) "generic"
                    og_page empty_data "https://site.test/p") eq_refl).
Defined.

(** ** The body-image pass, in general *)

Lemma body_image_fields E (image : Tag) :
  body_image E image !! "src" = Some (tag_get image "src" VNone)
  ∧ body_image E image !! "alt" = Some (tag_get image "alt" (VStr ""))
  ∧ body_image E image !! "type" = Some (VStr "body_image")
  ∧ body_image E image !! "width" =
      (if truthy (convert_to_int E (tag_get image "width" VNone))
       then Some (convert_to_int E (tag_get image "width" VNone))
       else None)
  ∧ body_image E image !! "height" = None
  ∧ dom (body_image E image) ⊆ {["src"; "alt"; "type"; "width"]}.
Proof.
  unfold body_image.
  destruct (truthy (convert_to_int E (tag_get image "width" VNone)));
    (split; [|split; [|split; [|split; [|split]]]]);
    try (by simplify_map_eq);
    rewrite ?dom_insert_L, dom_singleton_L;
    repeat apply union_least; set_unfold; naive_solver.
Qed.

(** X17.  Given a result whose [images] is a list, the body-image pass
    always returns, and appends, in document order and after the images
    already there, one record per img element: its [src] is the
    attribute as written ([None] when missing), its [alt] defaults to the
    empty string, its [type] is [body_image], its [width] is there
    exactly when [convert_to_int] of the attribute is true (so not for a
    width of zero), and it has no [height] and no other entry. *)
Theorem body_image_pass_records E soup (data : gmap string value) imgs :
  data !! "images" = Some (VList imgs) →
  ∃ soup' records,
    _find_all_images E [OSoup soup; ODict data] =
      Return (soup', <["images" := VList (imgs ++ records)]> data)
    ∧ Forall2
        (fun image r =>
           ∃ img : gmap string value,
             r = VDict img
             ∧ img !! "src" = Some (tag_get image "src" VNone)
             ∧ img !! "alt" = Some (tag_get image "alt" (VStr ""))
             ∧ img !! "type" = Some (VStr "body_image")
             ∧ img !! "width" =
                 (if truthy (convert_to_int E (tag_get image "width" VNone))
                  then Some (convert_to_int E (tag_get image "width" VNone))
                  else None)
             ∧ img !! "height" = None
             ∧ dom img ⊆ {["src"; "alt"; "type"; "width"]})
        (List.filter is_img soup) records.
Proof.
  intros Hd. eexists _, _. split; [by apply find_all_images_returns|].
  apply Forall2_fmap_r, Forall_Forall2_diag, Forall_forall.
  intros image _. exists (body_image E image). split; [done|].
  apply body_image_fields.
Qed.

Lemma body_image_pass_records_witness :
  ∃ (soup' : Soup) (records : list value),
    _find_all_images (one_page "" []) [OSoup gallery_page; ODict empty_data]
    = Return (soup', <["images" := VList ([] ++ records)]> empty_data)
    ∧ length records = 2.
Proof.
  destruct (body_image_pass_records (one_page "" []) gallery_page
              empty_data [] eq_refl) as (soup' & records & Hrun & Hrecords).
  exists soup', records. split; [exact Hrun|].
  apply Forall2_length in Hrecords. rewrite <- Hrecords. reflexivity.
Defined.

Lemma soup_title_height_written E (soup : Soup) :
  soup_title (height_written E <$> soup)
  = height_written E <$> soup_title soup.
Proof.
  unfold soup_title. induction soup as [|t soup IH]; [done|].
  cbn [fmap list_fmap List.find].
  assert (tag_name (height_written E t) = tag_name t) as ->.
  { unfold height_written. destruct (is_img t); [|done].
    by destruct (truthy _). }
  destruct (String.eqb (tag_name t) "title"); [done|]. apply IH.
Qed.

(** X18.  The body-image pass leaves the tree as it found it, but for
    the attribute [height] of img elements: the elements keep their
    number, order, names and text, every other attribute keeps its
    value, and [soup.title.string], which [fetch] reads after the pass,
    is what it was before. *)
Theorem body_image_pass_keeps_tree E soup (data data' : gmap string value)
    imgs soup' :
  data !! "images" = Some (VList imgs) →
  _find_all_images E [OSoup soup; ODict data] = Return (soup', data') →
  length soup' = length soup
  ∧ title_string soup' = title_string soup
  ∧ (∀ i t, soup !! i = Some t →
       ∃ t', soup' !! i = Some t'
             ∧ tag_name t' = tag_name t
             ∧ tag_string t' = tag_string t
             ∧ (∀ k, k ≠ "height" → tag_attrs t' !! k = tag_attrs t !! k)
             ∧ (is_img t = false → t' = t)).
Proof.
  intros Hd Hrun. rewrite (find_all_images_returns _ _ _ _ Hd) in Hrun.
  injection Hrun as <- _. split; [apply length_fmap|]. split.
  - unfold title_string. rewrite soup_title_height_written.
    destruct (soup_title soup) as [t|]; [|done]. cbn [fmap option_fmap option_map].
    unfold height_written. destruct (is_img t); [|done].
    by destruct (truthy _).
  - intros i t Hi. exists (height_written E t).
    split; [by rewrite list_lookup_fmap, Hi|].
    unfold height_written. destruct (is_img t); [|done].
    destruct (truthy _); [|done]. repeat split; [|done].
    intros k Hk. cbn [tag_set tag_attrs]. by rewrite lookup_insert_ne.
Qed.

Lemma body_image_pass_keeps_tree_witness :
  ∃ soup' data',
    _find_all_images (one_page "" []) [OSoup gallery_page; ODict empty_data]
    = Return (soup', data')
    ∧ length soup' = length gallery_page
    ∧ title_string soup' = Return (VStr "Gallery").
Proof.
  destruct (_find_all_images (one_page "" [])
              [OSoup gallery_page; ODict empty_data])
    as [[soup' data']|e] eqn:Hrun.
  - exists soup', data'. split; [reflexivity|].
    destruct (body_image_pass_keeps_tree (one_page "" []) gallery_page
                empty_data data' [] soup' eq_refl Hrun) as (Hlen & Htitle & _).
    split; [exact Hlen|]. rewrite Htitle. reflexivity.
  - exfalso.
    rewrite (find_all_images_returns _ gallery_page empty_data [] eq_refl)
      in Hrun. discriminate Hrun.
Defined.
